(** * CallSense: the analysis pipeline (agents.py, models.py, graph.py) and the
      upload handler (app.py, audio_utils.py), embedded and verified.

    Layout: Python values and exceptions, the library runtime the code calls
    into (json, float, pydantic), the pydantic models, the four prompted
    agents and the transcription agent, the LangGraph workflow with
    [process_call], the "Analyze Call" handler; then the properties.

    How the code is read:
    - a call returns a value or raises, and an exception is its message;
      [except Exception] and the bare [except] catch every exception here;
    - the text-generation model is a function from the rendered prompt to
      the content of its response or to the exception of the call; a prompt
      is kept as its template and the values put in it; every call is
      logged, so that "no model call" and "no later stage" can be stated;
    - what [json.loads], [float] and pydantic do is not part of this code:
      it is a [Runtime], and the properties hold for every runtime;
    - the agents are taken as constructed: [create_callsense_graph] builds
      them from the configuration before the first node runs;
    - the compiled graph is run by a small interpreter of its nodes and
      edges, under LangGraph's step limit. *)

From Stdlib Require Import String Ascii List ZArith QArith Bool Lia.
From ExtLib Require Import Structures.Monad.
Import ListNotations.
Import MonadNotation.
Local Open Scope monad_scope.
Local Open Scope Z_scope.
Local Open Scope string_scope.
Local Open Scope list_scope.

Set Implicit Arguments.
Set Warnings "-register-all".

(* ===================================================================== *)
(** ** Python values *)
(* ===================================================================== *)

(** A Python float is a finite double, an infinity or a NaN.  A finite
    double is kept as the rational it denotes: comparisons are then exact,
    as they are on doubles.  Rounding only happens where a float is made
    from text or from an int, and that is left to the runtime below. *)
Inductive pyfloat : Type :=
| FNum (q : Q)
| FInf (negative : bool)
| FNan.

(** What [json.loads] can return. A dict is its items in insertion order. *)
Inductive pyvalue : Type :=
| PNone
| PBool (b : bool)
| PInt (n : Z)
| PFloat (f : pyfloat)
| PStr (s : string)
| PList (l : list pyvalue)
| PDict (d : list (string * pyvalue)).

Definition pydict := list (string * pyvalue).

(** [x <= y] on floats; every comparison with a NaN is false. *)
Definition float_le (x y : pyfloat) : bool :=
  match x, y with
  | FNan, _ | _, FNan => false
  | FNum a, FNum b => Qle_bool a b
  | FInf true, _ => true
  | _, FInf false => true
  | _, _ => false
  end.

Definition float_ge (x y : pyfloat) : bool := float_le y x.

Definition float_of_Z (n : Z) : pyfloat := FNum (inject_Z n).

(** [bool(v)]: the truth value Python's [if] and [not] use. *)
Definition truthy (v : pyvalue) : bool :=
  match v with
  | PNone => false
  | PBool b => b
  | PInt n => negb (Z.eqb n 0)
  | PFloat (FNum q) => negb (Qeq_bool q 0)
  | PFloat _ => true
  | PStr s => negb (String.eqb s "")
  | PList l => match l with [] => false | _ => true end
  | PDict d => match d with [] => false | _ => true end
  end.

Definition type_name (v : pyvalue) : string :=
  match v with
  | PNone => "NoneType"
  | PBool _ => "bool"
  | PInt _ => "int"
  | PFloat _ => "float"
  | PStr _ => "str"
  | PList _ => "list"
  | PDict _ => "dict"
  end.

(* ===================================================================== *)
(** ** Exceptions *)
(* ===================================================================== *)

(** A call either returns or raises; an exception is kept as [str(e)],
    the only thing the code ever reads from one. *)
Inductive result (A : Type) : Type :=
| Ok (a : A)
| Raise (msg : string).
Arguments Ok {A} a.
Arguments Raise {A} msg.

#[export] Instance Monad_result : Monad result :=
  {| ret := fun _ a => Ok a;
     bind := fun _ _ c k =>
       match c with
       | Ok a => k a
       | Raise m => Raise m
       end |}.

(** [try: body / except: handler], for a body that calls nothing outside. *)
Definition try_except {A} (body : result A) (handler : A) : A :=
  match body with
  | Ok a => a
  | Raise _ => handler
  end.

Definition no_attribute {A} (ty attr : string) : result A :=
  Raise ("'" ++ ty ++ "' object has no attribute '" ++ attr ++ "'").

(** [obj.attr] on a state slot that is still [None]. *)
Definition attr_of {A} (o : option A) (attr : string) : result A :=
  match o with
  | Some a => Ok a
  | None => no_attribute "NoneType" attr
  end.

(** [d.get(key, default)] on a dict. *)
Fixpoint dict_get (d : pydict) (key : string) (default : pyvalue) : pyvalue :=
  match d with
  | [] => default
  | (k, v) :: d' => if String.eqb k key then v else dict_get d' key default
  end.

(** [v.get(key, default)] on whatever was decoded: only a dict has [get]. *)
Definition py_get (v : pyvalue) (key : string) (default : pyvalue)
  : result pyvalue :=
  match v with
  | PDict d => Ok (dict_get d key default)
  | _ => no_attribute (type_name v) "get"
  end.

(** [d[key]]: KeyError when the key is absent. *)
Fixpoint dict_item (d : pydict) (key : string) : result pyvalue :=
  match d with
  | [] => Raise ("'" ++ key ++ "'")
  | (k, v) :: d' => if String.eqb k key then Ok v else dict_item d' key
  end.

(* ===================================================================== *)
(** ** The library runtime *)
(* ===================================================================== *)

(** The parts of the Python runtime and of pydantic the code relies on and
    does not define.  Every property below is proved for all of them.
    - [json_loads]: [None] when [json.loads] raises;
    - [float_of_int], [float_of_str]: [float(v)] on an int and on a str,
      [None] on OverflowError and ValueError;
    - [validate_str], [validate_list_str], [validate_optional_int]: what
      pydantic makes of an input for a field declared [str], [List[str]]
      and [Optional[int]], [None] when it refuses it;
    - [validation_error_str]: [str(e)] of a ValidationError, from the model
      name and the refused fields with their inputs;
    - [py_repr]: [repr(v)]. *)
Class Runtime : Type := {
  json_loads : string -> option pyvalue;
  float_of_int : Z -> option pyfloat;
  float_of_str : string -> option pyfloat;
  validate_str : pyvalue -> option string;
  validate_list_str : pyvalue -> option (list string);
  validate_optional_int : pyvalue -> option (option Z);
  validation_error_str : string -> list (string * pyvalue) -> string;
  py_repr : pyvalue -> string
}.

(** What every pydantic release grants: a well-typed input is kept. *)
Class RuntimeLaws (R : Runtime) : Prop := {
  validate_str_str : forall s, validate_str (PStr s) = Some s;
  validate_list_str_strs :
    forall l, validate_list_str (PList (map PStr l)) = Some l;
  validate_optional_int_small :
    forall n, -2 ^ 63 <= n < 2 ^ 63 ->
      validate_optional_int (PInt n) = Some (Some n)
}.

Section PythonBuiltins.
Context {R : Runtime}.

(** [json.loads(text)] inside a [try]. *)
Definition loads (text : string) : result pyvalue :=
  match json_loads text with
  | Some v => Ok v
  | None => Raise "Expecting value"
  end.

(** [float(v)]. *)
Definition float_ (v : pyvalue) : result pyfloat :=
  match v with
  | PFloat f => Ok f
  | PBool b => Ok (float_of_Z (if b then 1 else 0))
  | PInt n =>
      match float_of_int n with
      | Some f => Ok f
      | None => Raise "int too large to convert to float"
      end
  | PStr s =>
      match float_of_str s with
      | Some f => Ok f
      | None => Raise ("could not convert string to float: " ++ py_repr v)
      end
  | _ =>
      Raise ("float() argument must be a string or a real number, not '"
             ++ type_name v ++ "'")
  end.

(** Raise the ValidationError of [model] unless no field was refused. *)
Definition validated {A} (model : string) (refused : list (string * pyvalue))
    (built : option A) : result A :=
  match refused, built with
  | [], Some a => Ok a
  | _, _ => Raise (validation_error_str model refused)
  end.

(** The entry of a field in the list of refused fields. *)
Definition refusal {A} (field : string) (input : pyvalue) (checked : option A)
  : list (string * pyvalue) :=
  match checked with
  | Some _ => []
  | None => [(field, input)]
  end.
End PythonBuiltins.

(* ===================================================================== *)
(** ** models.py *)
(* ===================================================================== *)

Module SentimentType.
Inductive t : Type := POSITIVE | NEUTRAL | NEGATIVE.

Definition value (s : t) : string :=
  match s with
  | POSITIVE => "positive"
  | NEUTRAL => "neutral"
  | NEGATIVE => "negative"
  end.

(** [SentimentType(v)]: the member whose value is [v], else ValueError. *)
Definition of_value {R : Runtime} (v : pyvalue) : result t :=
  let unknown := Raise (py_repr v ++ " is not a valid SentimentType") in
  match v with
  | PStr s =>
      if String.eqb s "positive" then Ok POSITIVE
      else if String.eqb s "neutral" then Ok NEUTRAL
      else if String.eqb s "negative" then Ok NEGATIVE
      else unknown
  | _ => unknown
  end.
End SentimentType.

Module CallCategory.
Inductive t : Type :=
  COMPLAINT | INQUIRY | TECHNICAL_SUPPORT | BILLING | GENERAL.

Definition value (c : t) : string :=
  match c with
  | COMPLAINT => "complaint"
  | INQUIRY => "inquiry"
  | TECHNICAL_SUPPORT => "technical_support"
  | BILLING => "billing"
  | GENERAL => "general"
  end.

(** [CallCategory(v)]. *)
Definition of_value {R : Runtime} (v : pyvalue) : result t :=
  let unknown := Raise (py_repr v ++ " is not a valid CallCategory") in
  match v with
  | PStr s =>
      if String.eqb s "complaint" then Ok COMPLAINT
      else if String.eqb s "inquiry" then Ok INQUIRY
      else if String.eqb s "technical_support" then Ok TECHNICAL_SUPPORT
      else if String.eqb s "billing" then Ok BILLING
      else if String.eqb s "general" then Ok GENERAL
      else unknown
  | _ => unknown
  end.
End CallCategory.

Module QAScore.
Record t : Type := mk {
  empathy : pyfloat;
  professionalism : pyfloat;
  resolution : pyfloat;
  compliance : pyfloat;
  overall : pyfloat
}.

(** [Field(ge=0, le=10)]. *)
Definition in_range (x : pyfloat) : bool :=
  float_ge x (float_of_Z 0) && float_le x (float_of_Z 10).

Definition check (x : pyfloat) : option pyfloat :=
  if in_range x then Some x else None.

(** [QAScore(empathy=.., ..)]: every field is checked against its bounds,
    and one refused field is enough for a ValidationError. *)
Definition new {R : Runtime} (e p r c o : pyfloat) : result t :=
  validated "QAScore"
    (refusal "empathy" (PFloat e) (check e)
     ++ refusal "professionalism" (PFloat p) (check p)
     ++ refusal "resolution" (PFloat r) (check r)
     ++ refusal "compliance" (PFloat c) (check c)
     ++ refusal "overall" (PFloat o) (check o))
    (if in_range e && in_range p && in_range r && in_range c && in_range o
     then Some (mk e p r c o) else None).
End QAScore.

Module CallSummary.
Record t : Type := mk {
  key_points : list string;
  customer_issue : string;
  resolution : string;
  sentiment : SentimentType.t;
  category : CallCategory.t;
  action_items : list string
}.

(** [CallSummary(key_points=.., ..)] on inputs taken from the decoded
    response; the two enum members are already built by the caller. *)
Definition new {R : Runtime} (kp ci rs : pyvalue) (sentiment : SentimentType.t)
    (category : CallCategory.t) (ai : pyvalue) : result t :=
  validated "CallSummary"
    (refusal "key_points" kp (validate_list_str kp)
     ++ refusal "customer_issue" ci (validate_str ci)
     ++ refusal "resolution" rs (validate_str rs)
     ++ refusal "action_items" ai (validate_list_str ai))
    (match validate_list_str kp, validate_str ci, validate_str rs,
           validate_list_str ai with
     | Some kp', Some ci', Some rs', Some ai' =>
         Some (mk kp' ci' rs' sentiment category ai')
     | _, _, _, _ => None
     end).
End CallSummary.

Module CallTranscript.
Record t : Type := mk {
  text : string;
  speaker_count : option Z;
  duration : option string
}.

(** [CallTranscript(text=.., speaker_count=.., duration=None)]. *)
Definition new {R : Runtime} (tx sc : pyvalue) (duration : option string)
  : result t :=
  validated "CallTranscript"
    (refusal "text" tx (validate_str tx)
     ++ refusal "speaker_count" sc (validate_optional_int sc))
    (match validate_str tx, validate_optional_int sc with
     | Some tx', Some sc' => Some (mk tx' sc' duration)
     | _, _ => None
     end).
End CallTranscript.

Module CallAnalysis.
Record t : Type := mk {
  transcript : CallTranscript.t;
  summary : CallSummary.t;
  qa_scores : QAScore.t;
  recommendations : list string;
  tags : list string
}.

(** [CallAnalysis(transcript=.., ..)] on the slots of the final state: a
    slot still [None] is refused, the two lists are validated as
    [List[str]]. *)
Definition new {R : Runtime} (tr : option CallTranscript.t)
    (su : option CallSummary.t) (qa : option QAScore.t) (rc tg : pyvalue)
  : result t :=
  validated "CallAnalysis"
    (refusal "transcript" PNone tr
     ++ refusal "summary" PNone su
     ++ refusal "qa_scores" PNone qa
     ++ refusal "recommendations" rc (validate_list_str rc)
     ++ refusal "tags" tg (validate_list_str tg))
    (match tr, su, qa, validate_list_str rc, validate_list_str tg with
     | Some tr', Some su', Some qa', Some rc', Some tg' =>
         Some (mk tr' su' qa' rc' tg')
     | _, _, _, _, _ => None
     end).
End CallAnalysis.

(* ===================================================================== *)
(** ** State and exceptions together *)
(* ===================================================================== *)

(** Code that both updates a state [S] and may raise.  The state reached
    when an exception is raised is kept: what was done before it stays
    done when the exception is caught. *)
Definition StExc (S A : Type) : Type := S -> result A * S.

#[export] Instance Monad_StExc (S : Type) : Monad (StExc S) :=
  {| ret := fun _ a s => (Ok a, s);
     bind := fun _ _ c k s =>
       match c s with
       | (Ok a, s') => k a s'
       | (Raise m, s') => (Raise m, s')
       end |}.

Definition lift {S A} (r : result A) : StExc S A := fun s => (r, s).

(** [try: body / except Exception as e: handler(str(e))]. *)
Definition catch {S A} (body : StExc S A) (handler : string -> StExc S A)
  : StExc S A :=
  fun s =>
    match body s with
    | (Ok a, s') => (Ok a, s')
    | (Raise m, s') => handler m s'
    end.

(* ===================================================================== *)
(** ** agents.py *)
(* ===================================================================== *)

(** A rendered prompt: which template, and the values put in its slots. *)
Inductive prompt : Type :=
| IntakePrompt (input : string)
| SummarizationPrompt (transcript : string)
| QualityPrompt (transcript issue resolution sentiment : string)
| RoutingPrompt (category sentiment issue resolution : string)
    (empathy professionalism resolution_score compliance : pyfloat).

(** The text-generation model behind [llm.invoke]: for a prompt, the
    content of its response, or the exception the call raises. *)
Definition model : Type := prompt -> result string.

(** An agent's code runs against the log of the calls made to the model. *)
Definition Agent (A : Type) : Type := StExc (list prompt) A.

(** [self.llm.invoke(prompt).content]. *)
Definition llm_invoke (llm : model) (p : prompt) : Agent string :=
  fun calls => (llm p, calls ++ [p]).

Module CallIntakeAgent.
(** The body of the [try]. *)
Definition parsed {R : Runtime} (raw_input content : string) : result pydict :=
  result <- loads content ;;
  is_valid <- py_get result "is_valid" (PBool true) ;;
  reason <- py_get result "reason" (PStr "Valid transcript") ;;
  estimated_speakers <- py_get result "estimated_speakers" (PInt 2) ;;
  ret [("is_valid", is_valid); ("reason", reason);
       ("estimated_speakers", estimated_speakers);
       ("transcript", PStr raw_input)].

(** The [except] branch. *)
Definition fallback (raw_input : string) : pydict :=
  [("is_valid", PBool true); ("reason", PStr "Transcript accepted");
   ("estimated_speakers", PInt 2); ("transcript", PStr raw_input)].

Definition process {R : Runtime} (llm : model) (raw_input : string)
  : Agent pydict :=
  content <- llm_invoke llm (IntakePrompt raw_input) ;;
  ret (try_except (parsed raw_input content) (fallback raw_input)).
End CallIntakeAgent.

Module TranscriptionAgent.
(** No model here: the intake data is reshaped into a transcript. *)
Definition process {R : Runtime} (intake_data : pydict)
  : result CallTranscript.t :=
  text <- dict_item intake_data "transcript" ;;
  CallTranscript.new text (dict_get intake_data "estimated_speakers" (PInt 2))
    None.
End TranscriptionAgent.

Module SummarizationAgent.
Definition parsed {R : Runtime} (content : string) : result CallSummary.t :=
  data <- loads content ;;
  key_points <-
    py_get data "key_points" (PList [PStr "No key points extracted"]) ;;
  customer_issue <- py_get data "customer_issue" (PStr "Not identified") ;;
  resolution <- py_get data "resolution" (PStr "Not specified") ;;
  sentiment_value <- py_get data "sentiment" (PStr "neutral") ;;
  sentiment <- SentimentType.of_value sentiment_value ;;
  category_value <- py_get data "category" (PStr "general") ;;
  category <- CallCategory.of_value category_value ;;
  action_items <- py_get data "action_items" (PList []) ;;
  CallSummary.new key_points customer_issue resolution sentiment category
    action_items.

Definition fallback : CallSummary.t :=
  CallSummary.mk ["Summary generation failed - using fallback"]
    "Unable to parse" "Unable to parse"
    SentimentType.NEUTRAL CallCategory.GENERAL [].

(** [transcript] is the state's slot, [None] when no transcript was made. *)
Definition process {R : Runtime} (llm : model)
    (transcript : option CallTranscript.t) : Agent CallSummary.t :=
  t <- lift (attr_of transcript "text") ;;
  content <- llm_invoke llm (SummarizationPrompt (CallTranscript.text t)) ;;
  ret (try_except (parsed content) fallback).
End SummarizationAgent.

Module QualityScoringAgent.
Definition seven : pyfloat := FNum (7 # 1).

Definition parsed {R : Runtime} (content : string) : result QAScore.t :=
  data <- loads content ;;
  empathy <- (py_get data "empathy" (PFloat seven) >>= float_) ;;
  professionalism <-
    (py_get data "professionalism" (PFloat seven) >>= float_) ;;
  resolution <- (py_get data "resolution" (PFloat seven) >>= float_) ;;
  compliance <- (py_get data "compliance" (PFloat seven) >>= float_) ;;
  overall <- (py_get data "overall" (PFloat seven) >>= float_) ;;
  QAScore.new empathy professionalism resolution compliance overall.

Definition fallback : QAScore.t :=
  QAScore.mk seven seven seven seven seven.

(** [prompt.format_messages(transcript=.., issue=.., ..)]. *)
Definition format_messages (t : CallTranscript.t) (s : CallSummary.t)
  : prompt :=
  QualityPrompt (CallTranscript.text t) (CallSummary.customer_issue s)
    (CallSummary.resolution s) (SentimentType.value (CallSummary.sentiment s)).

Definition process {R : Runtime} (llm : model)
    (transcript : option CallTranscript.t) (summary : option CallSummary.t)
  : Agent QAScore.t :=
  t <- lift (attr_of transcript "text") ;;
  s <- lift (attr_of summary "customer_issue") ;;
  content <- llm_invoke llm (format_messages t s) ;;
  ret (try_except (parsed content) fallback).
End QualityScoringAgent.

Module RoutingAgent.
Definition parsed {R : Runtime} (summary : CallSummary.t) (content : string)
  : result pydict :=
  data <- loads content ;;
  recommendations <-
    py_get data "recommendations" (PList [PStr "Continue current approach"]) ;;
  tags <-
    py_get data "tags"
      (PList [PStr (CallCategory.value (CallSummary.category summary));
              PStr (SentimentType.value (CallSummary.sentiment summary))]) ;;
  ret [("recommendations", recommendations); ("tags", tags)].

Definition fallback (summary : CallSummary.t) : pydict :=
  [("recommendations",
    PList [PStr "Review call quality"; PStr "Follow up with customer"]);
   ("tags",
    PList [PStr (CallCategory.value (CallSummary.category summary));
           PStr (SentimentType.value (CallSummary.sentiment summary));
           PStr "needs_review"])].

(** [prompt.format_messages(category=.., sentiment=.., ..)]. *)
Definition format_messages (s : CallSummary.t) (q : QAScore.t) : prompt :=
  RoutingPrompt (CallCategory.value (CallSummary.category s))
    (SentimentType.value (CallSummary.sentiment s))
    (CallSummary.customer_issue s) (CallSummary.resolution s)
    (QAScore.empathy q) (QAScore.professionalism q) (QAScore.resolution q)
    (QAScore.compliance q).

Definition process {R : Runtime} (llm : model)
    (summary : option CallSummary.t) (qa_scores : option QAScore.t)
  : Agent pydict :=
  s <- lift (attr_of summary "category") ;;
  q <- lift (attr_of qa_scores "empathy") ;;
  content <- llm_invoke llm (format_messages s q) ;;
  ret (try_except (parsed s content) (fallback s)).
End RoutingAgent.

(* ===================================================================== *)
(** ** graph.py *)
(* ===================================================================== *)

Module CallState.
(** The state dict passed from node to node.  [transcript], [summary] and
    [qa_scores] are [None] until their stage has run; [recommendations],
    [tags] and [error] hold whatever was stored, unchecked. *)
Record t : Type := mk {
  raw_input : string;
  intake_data : pydict;
  transcript : option CallTranscript.t;
  summary : option CallSummary.t;
  qa_scores : option QAScore.t;
  recommendations : pyvalue;
  tags : pyvalue;
  error : pyvalue
}.

Definition set_intake_data (v : pydict) (s : t) : t :=
  mk (raw_input s) v (transcript s) (summary s) (qa_scores s)
     (recommendations s) (tags s) (error s).
Definition set_transcript (v : CallTranscript.t) (s : t) : t :=
  mk (raw_input s) (intake_data s) (Some v) (summary s) (qa_scores s)
     (recommendations s) (tags s) (error s).
Definition set_summary (v : CallSummary.t) (s : t) : t :=
  mk (raw_input s) (intake_data s) (transcript s) (Some v) (qa_scores s)
     (recommendations s) (tags s) (error s).
Definition set_qa_scores (v : QAScore.t) (s : t) : t :=
  mk (raw_input s) (intake_data s) (transcript s) (summary s) (Some v)
     (recommendations s) (tags s) (error s).
Definition set_recommendations (v : pyvalue) (s : t) : t :=
  mk (raw_input s) (intake_data s) (transcript s) (summary s) (qa_scores s)
     v (tags s) (error s).
Definition set_tags (v : pyvalue) (s : t) : t :=
  mk (raw_input s) (intake_data s) (transcript s) (summary s) (qa_scores s)
     (recommendations s) v (error s).
Definition set_error (v : pyvalue) (s : t) : t :=
  mk (raw_input s) (intake_data s) (transcript s) (summary s) (qa_scores s)
     (recommendations s) (tags s) v.
End CallState.

(** A node function runs against the state dict and the model's call log. *)
Definition Node (A : Type) : Type := StExc (CallState.t * list prompt) A.

(** [state[key]] read and [state[key] = v] written by a node. *)
Definition state_get {A} (field : CallState.t -> A) : Node A :=
  fun w => (Ok (field (fst w)), w).
Definition state_set (update : CallState.t -> CallState.t) : Node unit :=
  fun w => (Ok tt, (update (fst w), snd w)).

(** An agent's [process] called from a node. *)
Definition call {A} (a : Agent A) : Node A :=
  fun w => let (r, calls) := a (snd w) in (r, (fst w, calls)).

(** A node function is total ([except Exception] catches what its body
    raises) and returns the state. *)
Definition returns_state (body : Node unit) (state : CallState.t)
    (calls : list prompt) : CallState.t * list prompt :=
  snd (body (state, calls)).

Inductive node : Type :=
  intake | transcription | summarization | quality_scoring | routing.

Inductive outcome : Type :=
| Analysis (analysis : CallAnalysis.t)
| ErrorRecord (error : pyvalue).

Section Workflow.
Context {R : Runtime} (llm : model).

Definition intake_node : Node unit :=
  catch
    (raw_input <- state_get CallState.raw_input ;;
     intake_data <- call (CallIntakeAgent.process llm raw_input) ;;
     state_set (CallState.set_intake_data intake_data) ;;
     is_valid <- lift (dict_item intake_data "is_valid") ;;
     if negb (truthy is_valid)
     then reason <- lift (dict_item intake_data "reason") ;;
          state_set (CallState.set_error reason)
     else ret tt)
    (fun e => state_set (CallState.set_error (PStr ("Intake error: " ++ e)))).

Definition transcription_node : Node unit :=
  catch
    (intake_data <- state_get CallState.intake_data ;;
     transcript <- lift (TranscriptionAgent.process intake_data) ;;
     state_set (CallState.set_transcript transcript))
    (fun e =>
       state_set (CallState.set_error (PStr ("Transcription error: " ++ e)))).

Definition summarization_node : Node unit :=
  catch
    (transcript <- state_get CallState.transcript ;;
     summary <- call (SummarizationAgent.process llm transcript) ;;
     state_set (CallState.set_summary summary))
    (fun e =>
       state_set (CallState.set_error (PStr ("Summarization error: " ++ e)))).

Definition quality_scoring_node : Node unit :=
  catch
    (transcript <- state_get CallState.transcript ;;
     summary <- state_get CallState.summary ;;
     qa_scores <- call (QualityScoringAgent.process llm transcript summary) ;;
     state_set (CallState.set_qa_scores qa_scores))
    (fun e =>
       state_set (CallState.set_error (PStr ("Quality scoring error: " ++ e)))).

Definition routing_node : Node unit :=
  catch
    (summary <- state_get CallState.summary ;;
     qa_scores <- state_get CallState.qa_scores ;;
     routing_data <- call (RoutingAgent.process llm summary qa_scores) ;;
     recommendations <- lift (dict_item routing_data "recommendations") ;;
     state_set (CallState.set_recommendations recommendations) ;;
     tags <- lift (dict_item routing_data "tags") ;;
     state_set (CallState.set_tags tags))
    (fun e => state_set (CallState.set_error (PStr ("Routing error: " ++ e)))).

(** [workflow.add_node]: the function behind each node name. *)
Definition node_function (n : node) : Node unit :=
  match n with
  | intake => intake_node
  | transcription => transcription_node
  | summarization => summarization_node
  | quality_scoring => quality_scoring_node
  | routing => routing_node
  end.

Definition entry_point : node := intake.

(** [add_conditional_edges] after intake, [add_edge] elsewhere; [None] is
    END. *)
Definition next_node (n : node) (state : CallState.t) : option node :=
  match n with
  | intake =>
      if truthy (dict_get (CallState.intake_data state) "is_valid"
                   (PBool false))
      then Some transcription else None
  | transcription => Some summarization
  | summarization => Some quality_scoring
  | quality_scoring => Some routing
  | routing => None
  end.

(** What a run of the compiled graph leaves behind: the final state, the
    calls made to the model, and the nodes run, each with the state it
    returned. *)
Record run : Type := mk_run {
  final : CallState.t;
  calls : list prompt;
  trace : list (node * CallState.t)
}.

(** The graph's step limit, LangGraph's default. *)
Definition recursion_limit : nat := 25.

Fixpoint run_from (steps : nat) (n : node) (state : CallState.t)
    (made : list prompt) (done : list (node * CallState.t)) : result run :=
  match steps with
  | O => Raise "Recursion limit of 25 reached without hitting a stop condition."
  | S steps' =>
      let (state', made') := returns_state (node_function n) state made in
      let done' := done ++ [(n, state')] in
      match next_node n state' with
      | None => Ok (mk_run state' made' done')
      | Some n' => run_from steps' n' state' made' done'
      end
  end.

(** [graph.invoke(initial_state)]. *)
Definition invoke (initial_state : CallState.t) : result run :=
  run_from recursion_limit entry_point initial_state [] [].

Definition initial_state (raw_input : string) : CallState.t :=
  CallState.mk raw_input [] None None None (PList []) (PList []) PNone.

(** What [process_call] makes of the final state. *)
Definition build (result : CallState.t) : outcome :=
  if truthy (CallState.error result)
  then ErrorRecord (CallState.error result)
  else
    match CallAnalysis.new (CallState.transcript result)
            (CallState.summary result) (CallState.qa_scores result)
            (CallState.recommendations result) (CallState.tags result) with
    | Ok analysis => Analysis analysis
    | Raise e => ErrorRecord (PStr ("Failed to build analysis: " ++ e))
    end.

Definition process_call (raw_input : string) : result outcome :=
  result <- invoke (initial_state raw_input) ;;
  ret (build (final result)).
End Workflow.

(* ===================================================================== *)
(** ** audio_utils.py and the "Analyze Call" handler of app.py *)
(* ===================================================================== *)

Module App.
(** A Streamlit upload: its name and its bytes. *)
Record upload : Type := mk_upload {
  name : string;
  getvalue : string
}.

(** The machine and the services the handler runs on:
    - [named_temporary_file]: the path [tempfile] picks for the upload's
      name, or the OSError of the creation;
    - [file_write]: writing the bytes to that path, which may raise;
    - [transcriptions_create]: opening the file and the speech-to-text call
      on it;
    - [os_remove]: [false] when removing that path raises. *)
Record Host : Type := mk_host {
  named_temporary_file : string -> result string;
  file_write : string -> string -> result unit;
  transcriptions_create : string -> result string;
  os_remove : string -> bool
}.

(** What the handler reads and changes: its two locals, the temporary
    files on disk, the session state it sets, the messages it shows with
    [st.success] and [st.error]. Spinners and the expander with the
    transcribed text only display and are left out. *)
Record world : Type := mk_world {
  transcript_to_process : option string;
  temp_file_path : option string;
  files : list string;
  transcribed_audio : option string;
  analysis_result : option outcome;
  last_transcript : option string;
  shown : list string
}.

Definition set_transcript_to_process v (w : world) : world :=
  mk_world v (temp_file_path w) (files w) (transcribed_audio w)
    (analysis_result w) (last_transcript w) (shown w).
Definition set_temp_file_path v (w : world) : world :=
  mk_world (transcript_to_process w) v (files w) (transcribed_audio w)
    (analysis_result w) (last_transcript w) (shown w).
Definition set_files v (w : world) : world :=
  mk_world (transcript_to_process w) (temp_file_path w) v
    (transcribed_audio w) (analysis_result w) (last_transcript w) (shown w).
Definition set_transcribed_audio v (w : world) : world :=
  mk_world (transcript_to_process w) (temp_file_path w) (files w) v
    (analysis_result w) (last_transcript w) (shown w).
Definition set_analysis_result v (w : world) : world :=
  mk_world (transcript_to_process w) (temp_file_path w) (files w)
    (transcribed_audio w) v (last_transcript w) (shown w).
Definition set_last_transcript v (w : world) : world :=
  mk_world (transcript_to_process w) (temp_file_path w) (files w)
    (transcribed_audio w) (analysis_result w) v (shown w).
Definition show (msg : string) (w : world) : world :=
  mk_world (transcript_to_process w) (temp_file_path w) (files w)
    (transcribed_audio w) (analysis_result w) (last_transcript w)
    (shown w ++ [msg]).

Definition Handler (A : Type) : Type := StExc world A.

Definition get {A} (field : world -> A) : Handler A :=
  fun w => (Ok (field w), w).
Definition update (f : world -> world) : Handler unit :=
  fun w => (Ok tt, f w).

(** [try: body / finally: cleanup], for a cleanup that does not raise. *)
Definition finally {A} (body : Handler A) (cleanup : Handler unit)
  : Handler A :=
  fun w => let (r, w') := body w in (r, snd (cleanup w')).

Definition exists_ (path : string) (fs : list string) : bool :=
  existsb (String.eqb path) fs.
Definition without (path : string) (fs : list string) : list string :=
  filter (fun p => negb (String.eqb path p)) fs.

(** [if s:] on an optional str. *)
Definition nonempty (s : option string) : option string :=
  match s with
  | Some t => if String.eqb t "" then None else Some t
  | None => None
  end.

(** The whitespace of [str.strip] and [str.isspace], by code point: the
    ASCII controls and the space, NEL, the no-break space, the Ogham space
    mark, the spaces of the General Punctuation block, the line and
    paragraph separators, the ideographic space. *)
Definition is_space (cp : Z) : bool :=
  ((9 <=? cp) && (cp <=? 13) || (28 <=? cp) && (cp <=? 32)
   || (cp =? 133) || (cp =? 160) || (cp =? 5760)
   || (8192 <=? cp) && (cp <=? 8202)
   || (cp =? 8232) || (cp =? 8233) || (cp =? 8239) || (cp =? 8287)
   || (cp =? 12288))%Z.

Definition byte (c : ascii) : Z := Z.of_N (N_of_ascii c).

(** A continuation byte of UTF-8, [10xxxxxx]. *)
Definition continues (c : ascii) : bool :=
  ((128 <=? byte c) && (byte c <? 192))%Z.

(** The code point of a lead byte, less its [lead] marker, and its
    continuation bytes. *)
Definition code_point (lead : Z) (c : ascii) (more : list ascii) : Z :=
  fold_left (fun cp c' => cp * 64 + (byte c' - 128))%Z more
    (byte c - lead)%Z.

(** [not s.strip()]: every character of [s] is whitespace. A Python str is
    a sequence of code points and a string here is its UTF-8 text, so the
    characters are decoded, from one to four bytes each; bytes that are
    not the UTF-8 of a str are not blank. *)
Fixpoint blank (s : string) : bool :=
  match s with
  | EmptyString => true
  | String c1 s1 =>
      if (byte c1 <? 128)%Z then is_space (byte c1) && blank s1
      else if (byte c1 <? 192)%Z then false
      else
        match s1 with
        | EmptyString => false
        | String c2 s2 =>
            if (byte c1 <? 224)%Z
            then continues c2 && is_space (code_point 192 c1 [c2])
                 && blank s2
            else
              match s2 with
              | EmptyString => false
              | String c3 s3 =>
                  if (byte c1 <? 240)%Z
                  then continues c2 && continues c3
                       && is_space (code_point 224 c1 [c2; c3])
                       && blank s3
                  else
                    match s3 with
                    | EmptyString => false
                    | String c4 s4 =>
                        continues c2 && continues c3 && continues c4
                        && is_space (code_point 240 c1 [c2; c3; c4])
                        && blank s4
                    end
              end
        end
  end.

(** [str(v)] in an f-string. *)
Definition py_str {R : Runtime} (v : pyvalue) : string :=
  match v with
  | PStr s => s
  | _ => py_repr v
  end.

Section OnHost.
Context {R : Runtime} (host : Host) (llm : model).

(** audio_utils.save_uploaded_audio: the file is created with
    [delete=False], so it stays when the write raises. *)
Definition save_uploaded_audio (uploaded_file : upload) : Handler string :=
  path <- lift (named_temporary_file host (name uploaded_file)) ;;
  update (fun w => set_files (path :: without path (files w)) w) ;;
  lift (file_write host path (getvalue uploaded_file)) ;;
  ret path.

(** audio_utils.transcribe_audio. *)
Definition transcribe_audio (audio_file_path : string) : Handler string :=
  catch (lift (transcriptions_create host audio_file_path))
    (fun e => lift (Raise ("Audio transcription failed: " ++ e))).

(** audio_utils.cleanup_temp_file: errors of the removal are ignored. *)
Definition cleanup_temp_file (file_path : string) : Handler unit :=
  fs <- get files ;;
  if exists_ file_path fs && os_remove host file_path
  then update (set_files (without file_path fs))
  else ret tt.

(** [if temp_file_path: cleanup_temp_file(temp_file_path)]. *)
Definition cleanup_if_set : Handler unit :=
  path <- get temp_file_path ;;
  match nonempty path with
  | Some p => cleanup_temp_file p
  | None => ret tt
  end.

(** The audio branch: its [try] block and its [except]. *)
Definition from_audio (audio_file : upload) : Handler unit :=
  catch
    (path <- save_uploaded_audio audio_file ;;
     update (set_temp_file_path (Some path)) ;;
     text <- transcribe_audio path ;;
     update (set_transcript_to_process (Some text)) ;;
     update (show "✅ Audio transcribed successfully!") ;;
     update (set_transcribed_audio (Some text)))
    (fun e =>
       update (show ("❌ Transcription Error: " ++ e)) ;;
       cleanup_if_set).

(** The text branch, and the branch without any input. *)
Definition from_text (transcript_text : string) : Handler unit :=
  if negb (blank transcript_text)
  then update (set_transcript_to_process (Some transcript_text)) ;;
       update (set_transcribed_audio None)
  else update
         (show "⚠️ Please upload an audio file or enter a transcript first!").

(** The [try] around [process_call] and its [finally]. [st.rerun()] leaves
    the script by raising. *)
Definition analyze (text : string) : Handler unit :=
  finally
    (result <- lift (process_call llm text) ;;
     match result with
     | ErrorRecord e => update (show ("❌ Error: " ++ py_str e))
     | Analysis _ =>
         update (set_analysis_result (Some result)) ;;
         update (set_last_transcript (Some text)) ;;
         update (show "✅ Analysis complete!") ;;
         lift (Raise "RerunException")
     end)
    cleanup_if_set.

(** The body of [if st.button("Analyze Call")]. *)
Definition analyze_call (audio_file : option upload)
    (transcript_text : string) : Handler unit :=
  update (set_transcript_to_process None) ;;
  update (set_temp_file_path None) ;;
  match audio_file with
  | Some f => from_audio f
  | None => from_text transcript_text
  end ;;
  to_process <- get transcript_to_process ;;
  match nonempty to_process with
  | Some text => analyze text
  | None => ret tt
  end.

(** The world a click starts from, with [fs] the temporary files
    already on disk. *)
Definition before_click (fs : list string) : world :=
  mk_world None None fs None None None [].
End OnHost.
End App.

(* ===================================================================== *)
(** ** A runtime to run the examples on *)
(* ===================================================================== *)

(** A runtime for evaluating the code on concrete inputs: validators that
    keep exactly the well-typed inputs, a decoder given by the table of the
    responses it decodes (any other text is not JSON to it), an exact
    [float] on ints and none on text, a message for validation errors that
    lists the refused fields.  The examples stay within what it has in
    common with Python; what is proved in general holds for every
    runtime. *)
Module Example.
Definition strict_str (v : pyvalue) : option string :=
  match v with
  | PStr s => Some s
  | _ => None
  end.

Fixpoint strict_strs (l : list pyvalue) : option (list string) :=
  match l with
  | [] => Some []
  | v :: l' =>
      match strict_str v, strict_strs l' with
      | Some s, Some r => Some (s :: r)
      | _, _ => None
      end
  end.

Definition strict_list_str (v : pyvalue) : option (list string) :=
  match v with
  | PList l => strict_strs l
  | _ => None
  end.

Definition strict_optional_int (v : pyvalue) : option (option Z) :=
  match v with
  | PNone => Some None
  | PInt n => Some (Some n)
  | _ => None
  end.

Fixpoint table_loads (table : list (string * pyvalue)) (text : string)
  : option pyvalue :=
  match table with
  | [] => None
  | (t, v) :: table' =>
      if String.eqb t text then Some v else table_loads table' text
  end.

Definition error_str (model : string) (refused : list (string * pyvalue))
  : string :=
  "validation error for " ++ model ++ ": "
  ++ String.concat ", " (map fst refused).

Definition repr (v : pyvalue) : string :=
  match v with
  | PStr s => "'" ++ s ++ "'"
  | PNone => "None"
  | _ => "<" ++ type_name v ++ ">"
  end.

Definition runtime (table : list (string * pyvalue)) : Runtime :=
  {| json_loads := table_loads table;
     float_of_int := fun n => Some (float_of_Z n);
     float_of_str := fun _ => None;
     validate_str := strict_str;
     validate_list_str := strict_list_str;
     validate_optional_int := strict_optional_int;
     validation_error_str := error_str;
     py_repr := repr |}.
(** JSON text: a double quote, and a name or a string between quotes. *)
Definition dq : string := String (ascii_of_nat 34) EmptyString.
Definition quoted (s : string) : string := dq ++ s ++ dq.

(** A model whose intake response is not JSON and whose summarization call
    raises. *)
Definition summarizer_down : model :=
  fun p =>
    match p with
    | IntakePrompt _ => Ok "Looks like a valid transcript."
    | SummarizationPrompt _ => Raise "boom"
    | _ => Ok "{}"
    end.
(** The response [{"is_valid": false, "reason": ""}] and what it decodes
    to. *)
Definition rejection_without_reason : string :=
  "{" ++ quoted "is_valid" ++ ": false, " ++ quoted "reason" ++ ": "
  ++ quoted "" ++ "}".
Definition rejection_without_reason_decoded : pyvalue :=
  PDict [("is_valid", PBool false); ("reason", PStr "")].
(** The response [{"is_valid": false, "reason": 42}] and what it decodes
    to. *)
Definition rejection_with_a_number : string :=
  "{" ++ quoted "is_valid" ++ ": false, " ++ quoted "reason" ++ ": 42}".
Definition rejection_with_a_number_decoded : pyvalue :=
  PDict [("is_valid", PBool false); ("reason", PInt 42)].
(** The response [{"is_valid": "no"}] and what it decodes to. *)
Definition is_valid_as_text : string :=
  "{" ++ quoted "is_valid" ++ ": " ++ quoted "no" ++ "}".
Definition is_valid_as_text_decoded : pyvalue :=
  PDict [("is_valid", PStr "no")].
(** The response [{"sentiment": "angry"}] and what it decodes to. *)
Definition angry_summary : string :=
  "{" ++ quoted "sentiment" ++ ": " ++ quoted "angry" ++ "}".
Definition angry_summary_decoded : pyvalue :=
  PDict [("sentiment", PStr "angry")].
(** The response [{"empathy": 11.5}] and what it decodes to. *)
Definition empathy_too_high : string :=
  "{" ++ quoted "empathy" ++ ": 11.5}".
Definition empathy_too_high_decoded : pyvalue :=
  PDict [("empathy", PFloat (FNum (23 # 2)))].

(** A transcript and a summary to score. *)
Definition a_transcript : CallTranscript.t :=
  CallTranscript.mk "Agent: hello" (Some 2) None.
Definition a_summary : CallSummary.t :=
  CallSummary.mk ["greeting"] "none" "none" SentimentType.NEUTRAL
    CallCategory.GENERAL [].
(** An upload of silence: the file is saved under [/tmp/tmpk3x9.wav], the
    transcription of it is the empty text, and removing files works. *)
Definition silence : App.upload := App.mk_upload "silence.wav" "RIFF".
Definition silent_host : App.Host :=
  App.mk_host (fun _ => Ok "/tmp/tmpk3x9.wav") (fun _ _ => Ok tt)
    (fun _ => Ok "") (fun _ => true).
(** The response [{"estimated_speakers": "two"}] and what it decodes to. *)
Definition speakers_as_text : string :=
  "{" ++ quoted "estimated_speakers" ++ ": " ++ quoted "two" ++ "}".
Definition speakers_as_text_decoded : pyvalue :=
  PDict [("estimated_speakers", PStr "two")].
(** A call about internet drops, resolved by a modem reset: the four
    responses of a model that answers as asked, and what they decode to. *)
Definition intake_json : string :=
  "{" ++ quoted "is_valid" ++ ": true, " ++ quoted "reason" ++ ": "
  ++ quoted "ok" ++ ", " ++ quoted "estimated_speakers" ++ ": 2}".
Definition summary_json : string :=
  "{" ++ quoted "key_points" ++ ": [" ++ quoted "modem reset" ++ "], "
  ++ quoted "customer_issue" ++ ": " ++ quoted "internet drops" ++ ", "
  ++ quoted "resolution" ++ ": " ++ quoted "modem reset" ++ ", "
  ++ quoted "sentiment" ++ ": " ++ quoted "positive" ++ ", "
  ++ quoted "category" ++ ": " ++ quoted "technical_support" ++ ", "
  ++ quoted "action_items" ++ ": []}".
Definition scores_json : string :=
  "{" ++ quoted "empathy" ++ ": 9.0, " ++ quoted "professionalism"
  ++ ": 9.0, " ++ quoted "resolution" ++ ": 8.5, " ++ quoted "compliance"
  ++ ": 9.0, " ++ quoted "overall" ++ ": 9.0}".
Definition routing_json : string :=
  "{" ++ quoted "recommendations" ++ ": [" ++ quoted "keep it up" ++ "], "
  ++ quoted "tags" ++ ": [" ++ quoted "internet" ++ ", " ++ quoted "modem"
  ++ "]}".

Definition support_call_table : list (string * pyvalue) :=
  [(intake_json,
    PDict [("is_valid", PBool true); ("reason", PStr "ok");
           ("estimated_speakers", PInt 2)]);
   (summary_json,
    PDict [("key_points", PList [PStr "modem reset"]);
           ("customer_issue", PStr "internet drops");
           ("resolution", PStr "modem reset");
           ("sentiment", PStr "positive");
           ("category", PStr "technical_support");
           ("action_items", PList [])]);
   (scores_json,
    PDict [("empathy", PFloat (FNum (9 # 1)));
           ("professionalism", PFloat (FNum (9 # 1)));
           ("resolution", PFloat (FNum (17 # 2)));
           ("compliance", PFloat (FNum (9 # 1)));
           ("overall", PFloat (FNum (9 # 1)))]);
   (routing_json,
    PDict [("recommendations", PList [PStr "keep it up"]);
           ("tags", PList [PStr "internet"; PStr "modem"])])].

Definition support_call_model : model :=
  fun p =>
    match p with
    | IntakePrompt _ => Ok intake_json
    | SummarizationPrompt _ => Ok summary_json
    | QualityPrompt _ _ _ _ => Ok scores_json
    | RoutingPrompt _ _ _ _ _ _ _ _ => Ok routing_json
    end.
End Example.


(* ===================================================================== *)
(** ** Vocabulary of the properties *)
(* ===================================================================== *)

(** The stage a prompt belongs to. *)
Definition stage_of (p : prompt) : node :=
  match p with
  | IntakePrompt _ => intake
  | SummarizationPrompt _ => summarization
  | QualityPrompt _ _ _ _ => quality_scoring
  | RoutingPrompt _ _ _ _ _ _ _ _ => routing
  end.

(** The prefix a node puts before the message of what it caught. *)
Definition error_label (n : node) : string :=
  match n with
  | intake => "Intake error: "
  | transcription => "Transcription error: "
  | summarization => "Summarization error: "
  | quality_scoring => "Quality scoring error: "
  | routing => "Routing error: "
  end.

(** The state and the call log a node function returns. *)
Definition after {R : Runtime} (llm : model) (n : node)
    (w : CallState.t * list prompt) : CallState.t * list prompt :=
  returns_state (node_function llm n) (fst w) (snd w).

(** [x] is a number of the closed interval from 0 to 10. *)
Definition within_0_10 (x : pyfloat) : Prop :=
  exists q : Q, x = FNum q /\ (0 <= q)%Q /\ (q <= 10)%Q.

Definition is_str (v : pyvalue) : bool :=
  match v with
  | PStr _ => true
  | _ => false
  end.

Section ClosedForm.
Context {R : Runtime} (llm : model).

(** The nodes after a stage that left its slot empty: each raises on the
    missing attribute before it reaches the model. [attrs] are the
    attributes the remaining nodes trip on, in order. *)
Fixpoint fall_through (rest : list (node * string)) (s : CallState.t)
  : list (node * CallState.t) :=
  match rest with
  | [] => []
  | (n, attr) :: rest' =>
      let s' :=
        CallState.set_error
          (PStr (error_label n ++ "'NoneType' object has no attribute '"
                 ++ attr ++ "'")) s in
      (n, s') :: fall_through rest' s'
  end.

(** The last state of a non-empty trace. *)
Definition last_state (tr : list (node * CallState.t)) (s : CallState.t)
  : CallState.t :=
  snd (last tr (intake, s)).

(** A run that went wrong at [n]: [s] is what [n] returned, [rest] the
    nodes that follow. *)
Definition broken_run (made : list prompt) (done : list (node * CallState.t))
    (n : node) (s : CallState.t) (rest : list (node * string)) : run :=
  let tr := done ++ (n, s) :: fall_through rest s in
  mk_run (last_state tr s) made tr.

(** The run of the graph on a raw input, written out branch by branch. *)
Definition run_of (raw : string) : run :=
  let s0 := initial_state raw in
  let p1 := IntakePrompt raw in
  match llm p1 with
  | Raise m =>
      let s1 := CallState.set_error (PStr ("Intake error: " ++ m)) s0 in
      mk_run s1 [p1] [(intake, s1)]
  | Ok c1 =>
      let d :=
        try_except (CallIntakeAgent.parsed raw c1)
          (CallIntakeAgent.fallback raw) in
      let s1 := CallState.set_intake_data d s0 in
      if truthy (dict_get d "is_valid" (PBool false))
      then
        match TranscriptionAgent.process d with
        | Raise e =>
            broken_run [p1] [(intake, s1)] transcription
              (CallState.set_error (PStr ("Transcription error: " ++ e)) s1)
              [(summarization, "text"); (quality_scoring, "text");
               (routing, "category")]
        | Ok t =>
            let s2 := CallState.set_transcript t s1 in
            let p3 := SummarizationPrompt (CallTranscript.text t) in
            match llm p3 with
            | Raise m =>
                broken_run [p1; p3] [(intake, s1); (transcription, s2)]
                  summarization
                  (CallState.set_error
                     (PStr ("Summarization error: " ++ m)) s2)
                  [(quality_scoring, "customer_issue"); (routing, "category")]
            | Ok c3 =>
                let su :=
                  try_except (SummarizationAgent.parsed c3)
                    SummarizationAgent.fallback in
                let s3 := CallState.set_summary su s2 in
                let p4 := QualityScoringAgent.format_messages t su in
                match llm p4 with
                | Raise m =>
                    broken_run [p1; p3; p4]
                      [(intake, s1); (transcription, s2); (summarization, s3)]
                      quality_scoring
                      (CallState.set_error
                         (PStr ("Quality scoring error: " ++ m)) s3)
                      [(routing, "empathy")]
                | Ok c4 =>
                    let q :=
                      try_except (QualityScoringAgent.parsed c4)
                        QualityScoringAgent.fallback in
                    let s4 := CallState.set_qa_scores q s3 in
                    let p5 := RoutingAgent.format_messages su q in
                    let done :=
                      [(intake, s1); (transcription, s2); (summarization, s3);
                       (quality_scoring, s4)] in
                    match llm p5 with
                    | Raise m =>
                        broken_run [p1; p3; p4; p5] done routing
                          (CallState.set_error
                             (PStr ("Routing error: " ++ m)) s4) []
                    | Ok c5 =>
                        let rd :=
                          try_except (RoutingAgent.parsed su c5)
                            (RoutingAgent.fallback su) in
                        let s5 :=
                          CallState.set_tags (dict_get rd "tags" PNone)
                            (CallState.set_recommendations
                               (dict_get rd "recommendations" PNone) s4) in
                        mk_run s5 [p1; p3; p4; p5] (done ++ [(routing, s5)])
                    end
                end
            end
        end
      else
        let s1' := CallState.set_error (dict_get d "reason" PNone) s1 in
        mk_run s1' [p1] [(intake, s1')]
  end.
End ClosedForm.

(** The place of a node in the chain. *)
Definition position (n : node) : nat :=
  match n with
  | intake => 0
  | transcription => 1
  | summarization => 2
  | quality_scoring => 3
  | routing => 4
  end.

(** In the run [r], stage [n] raised with message [msg]: the call it made
    to the model raised, or, for transcription, which makes none, the
    construction of the transcript from the intake data did. *)
Definition raises_at {R : Runtime} (llm : model) (r : run) (n : node)
    (msg : string) : Prop :=
  match n with
  | transcription =>
      exists s1,
        In (intake, s1) (trace r) /\ In transcription (map fst (trace r)) /\
        TranscriptionAgent.process (CallState.intake_data s1) = Raise msg
  | _ => exists p, In p (calls r) /\ stage_of p = n /\ llm p = Raise msg
  end.

(** A run that stops at the stage after intake that raises, and returns
    that stage's message under its label. *)
Definition stops_at_failure {R : Runtime} (llm : model) (raw : string) : Prop :=
  forall r n msg,
    invoke llm (initial_state raw) = Ok r ->
    n <> intake -> raises_at llm r n msg ->
    process_call llm raw = Ok (ErrorRecord (PStr (error_label n ++ msg))) /\
    exists done s, trace r = done ++ [(n, s)].

(** An input that intake judges invalid comes back as an error record
    carrying the reason, after a run of the intake node alone. *)
Definition rejection_carries_reason {R : Runtime} (llm : model) (raw : string)
  : Prop :=
  forall d h reason,
    CallIntakeAgent.process llm raw [] = (Ok d, h) ->
    dict_item d "is_valid" = Ok (PBool false) ->
    dict_item d "reason" = Ok (PStr reason) ->
    process_call llm raw = Ok (ErrorRecord (PStr reason)) /\
    exists r, invoke llm (initial_state raw) = Ok r /\
              map fst (trace r) = [intake].

(** The response is not JSON, or is JSON for something that is not an
    object. *)
Definition not_an_object {R : Runtime} (content : string) : Prop :=
  match json_loads content with
  | Some (PDict _) => False
  | _ => True
  end.

(** An object with a value the Summary record refuses, or that names no
    sentiment or category. *)
Definition refused_summary {R : Runtime} (d : pydict) : Prop :=
  validate_list_str
    (dict_get d "key_points" (PList [PStr "No key points extracted"])) = None \/
  validate_str (dict_get d "customer_issue" (PStr "Not identified")) = None \/
  validate_str (dict_get d "resolution" (PStr "Not specified")) = None \/
  (exists m,
     SentimentType.of_value (dict_get d "sentiment" (PStr "neutral"))
     = Raise m) \/
  (exists m,
     CallCategory.of_value (dict_get d "category" (PStr "general"))
     = Raise m) \/
  validate_list_str (dict_get d "action_items" (PList [])) = None.

(** An object with a score that is no number, or is outside its bounds. *)
Definition refused_scores {R : Runtime} (d : pydict) : Prop :=
  exists field,
    In field
      ["empathy"; "professionalism"; "resolution"; "compliance"; "overall"] /\
    match float_ (dict_get d field (PFloat QualityScoringAgent.seven)) with
    | Ok x => QAScore.in_range x = false
    | Raise _ => True
    end.

(** The decoding of [content] fails at stage [n]. *)
Definition decoding_fails {R : Runtime} (n : node) (content : string) : Prop :=
  match n with
  | intake | routing => not_an_object content
  | transcription => False
  | summarization =>
      not_an_object content \/
      exists d, json_loads content = Some (PDict d) /\ refused_summary d
  | quality_scoring =>
      not_an_object content \/
      exists d, json_loads content = Some (PDict d) /\ refused_scores d
  end.

(** Stage [n] answers the response [content] with its fallback record. *)
Definition falls_back {R : Runtime} (llm : model) (n : node) (content : string)
  : Prop :=
  match n with
  | intake =>
      forall raw h,
        llm (IntakePrompt raw) = Ok content ->
        fst (CallIntakeAgent.process llm raw h)
        = Ok (CallIntakeAgent.fallback raw)
  | transcription => True
  | summarization =>
      forall t h,
        llm (SummarizationPrompt (CallTranscript.text t)) = Ok content ->
        fst (SummarizationAgent.process llm (Some t) h)
        = Ok SummarizationAgent.fallback
  | quality_scoring =>
      forall t su h,
        llm (QualityScoringAgent.format_messages t su) = Ok content ->
        fst (QualityScoringAgent.process llm (Some t) (Some su) h)
        = Ok QualityScoringAgent.fallback
  | routing =>
      forall su q h,
        llm (RoutingAgent.format_messages su q) = Ok content ->
        fst (RoutingAgent.process llm (Some su) (Some q) h)
        = Ok (RoutingAgent.fallback su)
  end.

(** What is returned is an analysis or an error record with a reason
    string. *)
Definition analysis_or_reason_string {R : Runtime} (llm : model)
    (raw : string) : Prop :=
  exists o,
    process_call llm raw = Ok o /\
    match o with
    | Analysis _ => True
    | ErrorRecord e => is_str e = true
    end.

(** The fallback also where a field is missing from the decoded object. *)
Definition fallback_on_missing_field {R : Runtime} : Prop :=
  forall llm content d field,
    json_loads content = Some (PDict d) ->
    In field ["key_points"; "customer_issue"; "resolution"; "sentiment";
              "category"; "action_items"] ->
    (exists m, dict_item d field = Raise m) ->
    falls_back llm summarization content.

(** The fallback also where a field has a value of the wrong type. *)
Definition fallback_on_wrong_type {R : Runtime} : Prop :=
  forall llm content d v,
    json_loads content = Some (PDict d) ->
    dict_item d "is_valid" = Ok v ->
    (forall b, v <> PBool b) ->
    falls_back llm intake content.

(** Along a trace, a state with an error is followed only by states with
    an error. *)
Fixpoint error_kept (tr : list (node * CallState.t)) : Prop :=
  match tr with
  | [] => True
  | (_, s) :: rest =>
      (CallState.error s <> PNone ->
       Forall (fun x => CallState.error (snd x) <> PNone) rest) /\
      error_kept rest
  end.

(** The upload [f] is saved by [host] under the path [p]. *)
Definition saved (host : App.Host) (f : App.upload) (p : string) : Prop :=
  App.named_temporary_file host (App.name f) = Ok p /\ p <> "" /\
  App.file_write host p (App.getvalue f) = Ok tt.

(** Whatever is uploaded and saved is gone when the handler is left. *)
Definition upload_always_removed {R : Runtime} (host : App.Host) (llm : model)
  : Prop :=
  forall f p text w,
    saved host f p ->
    ~ In p (App.files (snd (App.analyze_call host llm (Some f) text w))).

(* ===================================================================== *)
(** ** config.py and utils.py *)
(* ===================================================================== *)

Module Config.
Definition EXCELLENT_THRESHOLD : pyfloat := FNum (8 # 1).
Definition GOOD_THRESHOLD : pyfloat := FNum (6 # 1).
Definition NEEDS_IMPROVEMENT_THRESHOLD : pyfloat := FNum (4 # 1).
End Config.

Module Utils.
Definition get_score_color (score : pyfloat) : string :=
  if float_ge score Config.EXCELLENT_THRESHOLD then "green"
  else if float_ge score Config.GOOD_THRESHOLD then "orange"
  else "red".

Definition get_score_label (score : pyfloat) : string :=
  if float_ge score Config.EXCELLENT_THRESHOLD then "Excellent"
  else if float_ge score Config.GOOD_THRESHOLD then "Good"
  else if float_ge score Config.NEEDS_IMPROVEMENT_THRESHOLD
       then "Needs Improvement"
  else "Poor".
End Utils.

(* ===================================================================== *)
(** ** The export of app.py *)
(* ===================================================================== *)

Module AppExport.
Definition strs (l : list string) : pyvalue := PList (map PStr l).

(** The dict [export_data] handed to [json.dumps]. *)
Definition export_data (analysis : CallAnalysis.t) : pyvalue :=
  let summary := CallAnalysis.summary analysis in
  let qa_scores := CallAnalysis.qa_scores analysis in
  PDict
    [("summary",
      PDict
        [("category", PStr (CallCategory.value (CallSummary.category summary)));
         ("sentiment",
          PStr (SentimentType.value (CallSummary.sentiment summary)));
         ("customer_issue", PStr (CallSummary.customer_issue summary));
         ("resolution", PStr (CallSummary.resolution summary));
         ("key_points", strs (CallSummary.key_points summary));
         ("action_items", strs (CallSummary.action_items summary))]);
     ("qa_scores",
      PDict
        [("overall", PFloat (QAScore.overall qa_scores));
         ("empathy", PFloat (QAScore.empathy qa_scores));
         ("professionalism", PFloat (QAScore.professionalism qa_scores));
         ("resolution", PFloat (QAScore.resolution qa_scores));
         ("compliance", PFloat (QAScore.compliance qa_scores))]);
     ("recommendations", strs (CallAnalysis.recommendations analysis));
     ("tags", strs (CallAnalysis.tags analysis))].
End AppExport.

(* ===================================================================== *)
(** ** Vocabulary of the further properties *)
(* ===================================================================== *)

(** The stages that call the model, in the order of the chain. *)
Definition calling_stages : list node :=
  [intake; summarization; quality_scoring; routing].

(** The five nodes in the order of the chain. *)
Definition chain : list node :=
  [intake; transcription; summarization; quality_scoring; routing].

(** Labels and colours from worst to best. *)
Definition label_rank (label : string) : nat :=
  if String.eqb label "Excellent" then 3
  else if String.eqb label "Good" then 2
  else if String.eqb label "Needs Improvement" then 1
  else 0.

Definition color_rank (color : string) : nat :=
  if String.eqb color "green" then 2
  else if String.eqb color "orange" then 1
  else 0.

(** The attribute routing trips on after stage [n] has raised. *)
Definition routing_trips_on (n : node) : string :=
  match n with
  | quality_scoring => "empathy"
  | _ => "category"
  end.

(** Two worlds that differ at most in the files on disk. *)
Definition same_but_files (w w' : App.world) : Prop :=
  App.transcript_to_process w' = App.transcript_to_process w /\
  App.temp_file_path w' = App.temp_file_path w /\
  App.transcribed_audio w' = App.transcribed_audio w /\
  App.analysis_result w' = App.analysis_result w /\
  App.last_transcript w' = App.last_transcript w /\
  App.shown w' = App.shown w.

(** The UTF-8 text of a Python str, given by its code points: what the
    strings of this development are, and what [App.blank] decodes. *)
Module Utf8.
Definition chr (n : Z) : ascii := ascii_of_N (Z.to_N n).

Definition encode (cp : Z) : string :=
  if (cp <? 128)%Z then String (chr cp) ""
  else if (cp <? 2048)%Z then
    String (chr (192 + cp / 64)) (String (chr (128 + cp mod 64)) "")
  else if (cp <? 65536)%Z then
    String (chr (224 + cp / 4096))
      (String (chr (128 + (cp / 64) mod 64))
         (String (chr (128 + cp mod 64)) ""))
  else
    String (chr (240 + cp / 262144))
      (String (chr (128 + (cp / 4096) mod 64))
         (String (chr (128 + (cp / 64) mod 64))
            (String (chr (128 + cp mod 64)) ""))).

Fixpoint text (cps : list Z) : string :=
  match cps with
  | [] => ""
  | cp :: rest => encode cp ++ text rest
  end.

(** A code point: Python's [str] holds none beyond U+10FFFF. *)
Definition code_point (cp : Z) : Prop := (0 <= cp < 1114112)%Z.

(** The code points [str.isspace] is true of. *)
Definition python_spaces : list Z :=
  [9; 10; 11; 12; 13; 28; 29; 30; 31; 32; 133; 160; 5760; 8192; 8193; 8194;
   8195; 8196; 8197; 8198; 8199; 8200; 8201; 8202; 8232; 8233; 8239; 8287;
   12288]%Z.
End Utf8.

(* ===================================================================== *)
(** ** Further inputs to evaluate the code on *)
(* ===================================================================== *)

Module Sample.
(** The raw input of the support call of [Example] and the analysis the
    pipeline makes of it. *)
Definition support_call : string := "Agent: Thank you for calling.".

Definition support_call_analysis : CallAnalysis.t :=
  CallAnalysis.mk
    (CallTranscript.mk support_call (Some 2) None)
    (CallSummary.mk ["modem reset"] "internet drops" "modem reset"
       SentimentType.POSITIVE CallCategory.TECHNICAL_SUPPORT [])
    (QAScore.mk (FNum (9 # 1)) (FNum (9 # 1)) (FNum (17 # 2)) (FNum (9 # 1))
       (FNum (9 # 1)))
    ["keep it up"] ["internet"; "modem"].

(** The response [{"reason": "short but fine"}], without [is_valid]. *)
Definition no_verdict : string :=
  "{" ++ Example.quoted "reason" ++ ": " ++ Example.quoted "short but fine"
  ++ "}".
Definition no_verdict_decoded : pyvalue :=
  PDict [("reason", PStr "short but fine")].

(** A model whose quality call raises, after an intake that is not JSON and
    a summary that is the empty object. *)
Definition scorer_down : model :=
  fun p =>
    match p with
    | IntakePrompt _ => Ok "Looks like a valid transcript."
    | QualityPrompt _ _ _ _ => Raise "rate limit"
    | _ => Ok "{}"
    end.

(** An upload of speech: saved under [/tmp/tmpa1b2.mp3] and transcribed to
    a line of dialogue, on a machine where removing files works. *)
Definition speech : App.upload := App.mk_upload "call.mp3" "ID3".
Definition speech_host : App.Host :=
  App.mk_host (fun _ => Ok "/tmp/tmpa1b2.mp3") (fun _ _ => Ok tt)
    (fun _ => Ok "Agent: hello") (fun _ => true).

(** The same upload on a disk that is full: the file is created, writing
    to it raises. *)
Definition full_disk_host : App.Host :=
  App.mk_host (fun _ => Ok "/tmp/tmpa1b2.mp3")
    (fun _ _ => Raise "No space left on device")
    (fun _ => Ok "Agent: hello") (fun _ => true).

(** The same upload when the speech-to-text service cannot be reached. *)
Definition offline_host : App.Host :=
  App.mk_host (fun _ => Ok "/tmp/tmpa1b2.mp3") (fun _ _ => Ok tt)
    (fun _ => Raise "Connection error.") (fun _ => true).

(** A text of a space, a no-break space and an ideographic space. *)
Definition spaces_only : string := Utf8.text [32; 160; 12288]%Z.

(** The response [{"is_valid": false, "reason": "not a call"}]. *)
Definition rejection : string :=
  "{" ++ Example.quoted "is_valid" ++ ": false, " ++ Example.quoted "reason"
  ++ ": " ++ Example.quoted "not a call" ++ "}".
Definition rejection_decoded : pyvalue :=
  PDict [("is_valid", PBool false); ("reason", PStr "not a call")].

(** The export of the support call as JSON text, and its summary and its
    scores alone. *)
Definition exported_summary_json : string :=
  "{" ++ Example.quoted "category" ++ ": "
  ++ Example.quoted "technical_support" ++ ", "
  ++ Example.quoted "sentiment" ++ ": " ++ Example.quoted "positive" ++ ", "
  ++ Example.quoted "customer_issue" ++ ": "
  ++ Example.quoted "internet drops" ++ ", "
  ++ Example.quoted "resolution" ++ ": " ++ Example.quoted "modem reset"
  ++ ", " ++ Example.quoted "key_points" ++ ": ["
  ++ Example.quoted "modem reset" ++ "], "
  ++ Example.quoted "action_items" ++ ": []}".
Definition exported_scores_json : string :=
  "{" ++ Example.quoted "overall" ++ ": 9.0, " ++ Example.quoted "empathy"
  ++ ": 9.0, " ++ Example.quoted "professionalism" ++ ": 9.0, "
  ++ Example.quoted "resolution" ++ ": 8.5, " ++ Example.quoted "compliance"
  ++ ": 9.0}".
Definition exported_json : string :=
  "{" ++ Example.quoted "summary" ++ ": " ++ exported_summary_json ++ ", "
  ++ Example.quoted "qa_scores" ++ ": " ++ exported_scores_json ++ ", "
  ++ Example.quoted "recommendations" ++ ": ["
  ++ Example.quoted "keep it up" ++ "], " ++ Example.quoted "tags" ++ ": ["
  ++ Example.quoted "internet" ++ ", " ++ Example.quoted "modem" ++ "]}".

Definition exported_summary : pyvalue :=
  PDict
    [("category", PStr "technical_support"); ("sentiment", PStr "positive");
     ("customer_issue", PStr "internet drops");
     ("resolution", PStr "modem reset");
     ("key_points", PList [PStr "modem reset"]); ("action_items", PList [])].
Definition exported_scores : pyvalue :=
  PDict
    [("overall", PFloat (FNum (9 # 1))); ("empathy", PFloat (FNum (9 # 1)));
     ("professionalism", PFloat (FNum (9 # 1)));
     ("resolution", PFloat (FNum (17 # 2)));
     ("compliance", PFloat (FNum (9 # 1)))].

Definition export_table : list (string * pyvalue) :=
  [(exported_summary_json, exported_summary);
   (exported_scores_json, exported_scores);
   (exported_json,
    PDict
      [("summary", exported_summary); ("qa_scores", exported_scores);
       ("recommendations", PList [PStr "keep it up"]);
       ("tags", PList [PStr "internet"; PStr "modem"])])].
End Sample.

(* ===================================================================== *)
(** ** Tactics *)
(* ===================================================================== *)

(** Simplify, leaving the decoders and the prompts folded. *)
Ltac tidy :=
  cbn -[try_except CallIntakeAgent.parsed SummarizationAgent.parsed
        QualityScoringAgent.parsed RoutingAgent.parsed
        TranscriptionAgent.process QualityScoringAgent.format_messages
        RoutingAgent.format_messages String.append truthy].

(** Split on what the next call returns. *)
Ltac split_on_call llm :=
  match goal with
  | |- context [match llm ?p with _ => _ end] => destruct (llm p)
  | |- context [match TranscriptionAgent.process ?d with _ => _ end] =>
      destruct (TranscriptionAgent.process d)
  end.

(** The same, keeping what was returned as an equation. *)
Ltac case_on_call llm :=
  match goal with
  | |- context [match llm ?p with _ => _ end] => destruct (llm p) eqn:?
  | |- context [match TranscriptionAgent.process ?d with _ => _ end] =>
      destruct (TranscriptionAgent.process d) eqn:?
  | |- context [if truthy ?v then _ else _] => destruct (truthy v) eqn:?
  end.

(** Replay on [llm2] the answers recorded for [llm1], given that they
    agree ([Hag]) on the prompts of the run. *)
Ltac follow llm1 llm2 Hag :=
  repeat match goal with
    | E : llm1 ?p = _ |- context [llm2 ?p] =>
        rewrite (Hag p) by (cbn [In]; tauto); rewrite E
    | E : truthy ?v = _ |- context [truthy ?v] => rewrite E
    | E : TranscriptionAgent.process ?d = _
      |- context [TranscriptionAgent.process ?d] => rewrite E
    end.

(** Name what was decoded, so that the states stay small. *)
Ltac name_decoded :=
  repeat match goal with
    | |- context [try_except ?x ?y] =>
        let v := fresh "decoded" in generalize (try_except x y); intros v
    end.

(** Go through the branches of [run_of]. *)
Ltac run_cases llm :=
  unfold run_of, broken_run, last_state; cbv zeta;
  repeat case_on_call llm;
  repeat match goal with H : _ = _ |- _ => clear H end;
  name_decoded.

(* ===================================================================== *)
(** ** What each node does, in closed form *)
(* ===================================================================== *)

Section NodeEquations.
Context {R : Runtime} (llm : model).

(** Decoded or not, the intake data has its four keys. *)
Lemma intake_reply_shape raw content :
  exists v r n,
    try_except (CallIntakeAgent.parsed raw content)
      (CallIntakeAgent.fallback raw)
    = [("is_valid", v); ("reason", r); ("estimated_speakers", n);
       ("transcript", PStr raw)].
Proof.
  unfold CallIntakeAgent.parsed, CallIntakeAgent.fallback, loads.
  destruct (json_loads content) as [[]|]; cbn; eauto.
Qed.

Lemma intake_node_eq s h :
  returns_state (intake_node llm) s h =
  (match llm (IntakePrompt (CallState.raw_input s)) with
   | Raise m => CallState.set_error (PStr ("Intake error: " ++ m)) s
   | Ok content =>
       let d :=
         try_except
           (CallIntakeAgent.parsed (CallState.raw_input s) content)
           (CallIntakeAgent.fallback (CallState.raw_input s)) in
       let s' := CallState.set_intake_data d s in
       if truthy (dict_get d "is_valid" (PBool false)) then s'
       else CallState.set_error (dict_get d "reason" PNone) s'
   end, h ++ [IntakePrompt (CallState.raw_input s)]).
Proof.
  unfold returns_state, intake_node, catch, call, CallIntakeAgent.process,
    llm_invoke.
  cbn -[try_except CallIntakeAgent.parsed].
  destruct (llm (IntakePrompt (CallState.raw_input s))) as [content|m];
    cbn -[try_except CallIntakeAgent.parsed]; [|reflexivity].
  destruct (intake_reply_shape (CallState.raw_input s) content)
    as (v & r & n & E).
  rewrite E. cbn. destruct (truthy v); reflexivity.
Qed.

Lemma transcription_node_eq s h :
  returns_state transcription_node s h =
  (match TranscriptionAgent.process (CallState.intake_data s) with
   | Ok t => CallState.set_transcript t s
   | Raise e => CallState.set_error (PStr ("Transcription error: " ++ e)) s
   end, h).
Proof.
  unfold returns_state, transcription_node, catch, lift, state_get, state_set.
  cbn -[TranscriptionAgent.process].
  destruct (TranscriptionAgent.process (CallState.intake_data s));
    reflexivity.
Qed.

Lemma summarization_node_eq s h :
  returns_state (summarization_node llm) s h =
  match CallState.transcript s with
  | None =>
      (CallState.set_error
         (PStr "Summarization error: 'NoneType' object has no attribute 'text'")
         s, h)
  | Some t =>
      (match llm (SummarizationPrompt (CallTranscript.text t)) with
       | Ok content =>
           CallState.set_summary
             (try_except (SummarizationAgent.parsed content)
                SummarizationAgent.fallback) s
       | Raise m =>
           CallState.set_error (PStr ("Summarization error: " ++ m)) s
       end, h ++ [SummarizationPrompt (CallTranscript.text t)])
  end.
Proof.
  unfold returns_state, summarization_node, catch, call,
    SummarizationAgent.process, llm_invoke.
  cbn -[try_except SummarizationAgent.parsed].
  destruct (CallState.transcript s) as [t|];
    cbn -[try_except SummarizationAgent.parsed]; [|reflexivity].
  destruct (llm (SummarizationPrompt (CallTranscript.text t))); reflexivity.
Qed.

Lemma quality_scoring_node_eq s h :
  returns_state (quality_scoring_node llm) s h =
  match CallState.transcript s, CallState.summary s with
  | None, _ =>
      (CallState.set_error
         (PStr "Quality scoring error: 'NoneType' object has no attribute 'text'")
         s, h)
  | Some _, None =>
      (CallState.set_error
         (PStr "Quality scoring error: 'NoneType' object has no attribute 'customer_issue'")
         s, h)
  | Some t, Some su =>
      (match llm (QualityScoringAgent.format_messages t su) with
       | Ok content =>
           CallState.set_qa_scores
             (try_except (QualityScoringAgent.parsed content)
                QualityScoringAgent.fallback) s
       | Raise m =>
           CallState.set_error (PStr ("Quality scoring error: " ++ m)) s
       end, h ++ [QualityScoringAgent.format_messages t su])
  end.
Proof.
  unfold returns_state, quality_scoring_node, catch, call,
    QualityScoringAgent.process, llm_invoke.
  cbn -[try_except QualityScoringAgent.parsed
        QualityScoringAgent.format_messages].
  destruct (CallState.transcript s) as [t|];
    cbn -[try_except QualityScoringAgent.parsed
          QualityScoringAgent.format_messages]; [|reflexivity].
  destruct (CallState.summary s) as [su|];
    cbn -[try_except QualityScoringAgent.parsed
          QualityScoringAgent.format_messages]; [|reflexivity].
  match goal with |- context [llm ?p] => destruct (llm p) end; reflexivity.
Qed.

(** Decoded or not, the routing data has its two keys. *)
Lemma routing_reply_shape su content :
  exists rc tg,
    try_except (RoutingAgent.parsed su content) (RoutingAgent.fallback su)
    = [("recommendations", rc); ("tags", tg)].
Proof.
  unfold RoutingAgent.parsed, RoutingAgent.fallback, loads.
  destruct (json_loads content) as [[]|]; cbn; eauto.
Qed.

Lemma routing_node_eq s h :
  returns_state (routing_node llm) s h =
  match CallState.summary s, CallState.qa_scores s with
  | None, _ =>
      (CallState.set_error
         (PStr "Routing error: 'NoneType' object has no attribute 'category'")
         s, h)
  | Some _, None =>
      (CallState.set_error
         (PStr "Routing error: 'NoneType' object has no attribute 'empathy'")
         s, h)
  | Some su, Some q =>
      (match llm (RoutingAgent.format_messages su q) with
       | Ok content =>
           let d :=
             try_except (RoutingAgent.parsed su content)
               (RoutingAgent.fallback su) in
           CallState.set_tags (dict_get d "tags" PNone)
             (CallState.set_recommendations
                (dict_get d "recommendations" PNone) s)
       | Raise m => CallState.set_error (PStr ("Routing error: " ++ m)) s
       end, h ++ [RoutingAgent.format_messages su q])
  end.
Proof.
  unfold returns_state, routing_node, catch, call,
    RoutingAgent.process, llm_invoke.
  cbn -[try_except RoutingAgent.parsed RoutingAgent.format_messages].
  destruct (CallState.summary s) as [su|];
    cbn -[try_except RoutingAgent.parsed RoutingAgent.format_messages];
    [|reflexivity].
  destruct (CallState.qa_scores s) as [q|];
    cbn -[try_except RoutingAgent.parsed RoutingAgent.format_messages];
    [|reflexivity].
  match goal with |- context [llm ?p] => destruct (llm p) as [content|] end;
    cbn -[try_except RoutingAgent.parsed RoutingAgent.format_messages];
    [|reflexivity].
  destruct (routing_reply_shape su content) as (rc & tg & E).
  rewrite E. reflexivity.
Qed.
End NodeEquations.

(* ===================================================================== *)
(** ** The run of the graph *)
(* ===================================================================== *)

Section RunEquations.
Context {R : Runtime} (llm : model).

(** The graph run, node after node. *)
Lemma invoke_eq s0 :
  invoke llm s0 =
  let w1 := after llm intake (s0, []) in
  if truthy (dict_get (CallState.intake_data (fst w1)) "is_valid" (PBool false))
  then
    let w2 := after llm transcription w1 in
    let w3 := after llm summarization w2 in
    let w4 := after llm quality_scoring w3 in
    let w5 := after llm routing w4 in
    Ok (mk_run (fst w5) (snd w5)
          [(intake, fst w1); (transcription, fst w2); (summarization, fst w3);
           (quality_scoring, fst w4); (routing, fst w5)])
  else Ok (mk_run (fst w1) (snd w1) [(intake, fst w1)]).
Proof.
  unfold invoke, recursion_limit, entry_point, after.
  cbn [run_from next_node fst snd app].
  destruct (returns_state (node_function llm intake) s0 []) as [s1 h1].
  cbn [run_from next_node fst snd app].
  destruct (truthy _); [|reflexivity].
  destruct (returns_state (node_function llm transcription) s1 h1) as [s2 h2].
  cbn [run_from next_node fst snd app].
  destruct (returns_state (node_function llm summarization) s2 h2) as [s3 h3].
  cbn [run_from next_node fst snd app].
  destruct (returns_state (node_function llm quality_scoring) s3 h3) as [s4 h4].
  cbn [run_from next_node fst snd app].
  destruct (returns_state (node_function llm routing) s4 h4) as [s5 h5].
  reflexivity.
Qed.

(** The graph computes the run written out in [run_of]. *)
Lemma invoke_run_of raw :
  invoke llm (initial_state raw) = Ok (run_of llm raw).
Proof.
  rewrite invoke_eq. unfold run_of, after, broken_run, last_state.
  cbv zeta. cbn [node_function initial_state].
  rewrite intake_node_eq. tidy. split_on_call llm; tidy; [|reflexivity].
  match goal with
  | |- context [try_except (CallIntakeAgent.parsed ?r ?c) _] =>
      destruct (intake_reply_shape r c) as (v & rs & n & E); rewrite !E
  end.
  tidy. destruct (truthy v) eqn:Ev; tidy; rewrite ?Ev; [|reflexivity].
  rewrite ?transcription_node_eq. tidy. split_on_call llm; tidy.
  - rewrite ?summarization_node_eq. tidy. split_on_call llm; tidy.
    + rewrite ?quality_scoring_node_eq. tidy. split_on_call llm; tidy.
      * rewrite ?routing_node_eq. tidy. split_on_call llm; tidy; reflexivity.
      * rewrite ?routing_node_eq. reflexivity.
    + rewrite ?quality_scoring_node_eq. tidy.
      rewrite ?routing_node_eq. reflexivity.
  - rewrite ?summarization_node_eq. tidy.
    rewrite ?quality_scoring_node_eq. tidy.
    rewrite ?routing_node_eq. reflexivity.
Qed.
End RunEquations.

(* ===================================================================== *)
(** ** Determinism *)
(* ===================================================================== *)

Section Determinism.
Context {R : Runtime}.

(** Two models that answer alike on the prompts of the first one's run
    make the same run. *)
Lemma run_of_agree llm1 llm2 raw :
  (forall p, In p (calls (run_of llm1 raw)) -> llm2 p = llm1 p) ->
  run_of llm2 raw = run_of llm1 raw.
Proof.
  unfold run_of, broken_run. cbv zeta.
  repeat case_on_call llm1.
  all: cbn [calls]; intros Hag.
  all: follow llm1 llm2 Hag.
  all: reflexivity.
Qed.

(** C8. Determinism: a second run on the same raw input, with a model that
    gives the same responses on the prompts the first run sent, makes the
    same run (same final state, same calls, same trace) and returns the
    same output. *)
Theorem C8_same_responses_same_output (llm1 llm2 : model) (raw : string)
    (r : run) :
  invoke llm1 (initial_state raw) = Ok r ->
  (forall p, In p (calls r) -> llm2 p = llm1 p) ->
  invoke llm2 (initial_state raw) = Ok r /\
  process_call llm2 raw = process_call llm1 raw.
Proof.
  rewrite invoke_run_of. intros [= <-] Hag.
  unfold process_call. rewrite !invoke_run_of.
  rewrite (run_of_agree _ _ _ Hag). split; reflexivity.
Qed.
End Determinism.

(** A model that differs from [Example.summarizer_down] only where the run
    never asks. *)
Lemma C8_witness :
  let R := Example.runtime [] in
  let llm2 : model :=
    fun p =>
      match p with
      | IntakePrompt _ => Ok "Looks like a valid transcript."
      | SummarizationPrompt _ => Raise "boom"
      | _ => Raise "never asked"
      end in
  invoke llm2 (initial_state "Agent: hello")
  = Ok (run_of Example.summarizer_down "Agent: hello") /\
  process_call llm2 "Agent: hello"
  = process_call Example.summarizer_down "Agent: hello".
Proof.
  intros R llm2.
  apply (@C8_same_responses_same_output R Example.summarizer_down llm2).
  - reflexivity.
  - cbn. intros p [<-|[<-|[]]]; reflexivity.
Defined.

(* ===================================================================== *)
(** ** A stage that raises *)
(* ===================================================================== *)

Section Failures.
Context {R : Runtime} (llm : model).

Lemma model_call_failure raw p msg :
  let r := run_of llm raw in
  In p (calls r) -> stage_of p <> intake -> llm p = Raise msg ->
  (exists s, In (stage_of p, s) (trace r) /\
             CallState.error s = PStr (error_label (stage_of p) ++ msg)) /\
  (forall p', In p' (calls r) ->
              (position (stage_of p') <= position (stage_of p))%nat) /\
  map fst (trace r)
  = [intake; transcription; summarization; quality_scoring; routing] /\
  (exists e, build (final r) = ErrorRecord (PStr e)).
Proof.
  unfold run_of, broken_run, last_state. cbv zeta.
  repeat case_on_call llm.
  all: cbn [calls In]; intros Hin Hst Hm.
  all: repeat (destruct Hin as [<-|Hin];
               [try (exfalso; apply Hst; reflexivity); try congruence|]);
       try contradiction.
  all: match goal with
       | E : llm ?q = Raise _, H : llm ?q = Raise _ |- _ =>
           rewrite E in H; injection H as <-
       end.
  all: repeat split.
  all: try reflexivity.
  all: try (eexists; split;
            [cbn; repeat first [left; reflexivity | right] | reflexivity]).
  all: try (intros p' Hin'; cbn [In] in Hin';
            repeat (destruct Hin' as [<-|Hin']; [cbn; lia|]); contradiction).
  all: cbn; eexists; reflexivity.
Qed.

Lemma transcription_failure raw s1 msg :
  let r := run_of llm raw in
  In (intake, s1) (trace r) -> In transcription (map fst (trace r)) ->
  TranscriptionAgent.process (CallState.intake_data s1) = Raise msg ->
  (exists s, In (transcription, s) (trace r) /\
             CallState.error s = PStr ("Transcription error: " ++ msg)) /\
  (forall p', In p' (calls r) -> (position (stage_of p') <= 1)%nat) /\
  map fst (trace r)
  = [intake; transcription; summarization; quality_scoring; routing] /\
  (exists e, build (final r) = ErrorRecord (PStr e)).
Proof.
  unfold run_of, broken_run, last_state. cbv zeta.
  repeat case_on_call llm.
  all: intros Hin Hnodes Hp.
  all: cbn [In map fst trace app fall_through] in Hin, Hnodes.
  all: try (destruct Hnodes as [Hnodes|[]]; discriminate Hnodes).
  all: destruct Hin as [[= <-]|Hin];
       [|repeat (destruct Hin as [Hin|Hin]; [discriminate Hin|]);
         contradiction].
  all: cbn [CallState.intake_data CallState.set_intake_data initial_state]
         in Hp.
  all: try congruence.
  match goal with
  | E : TranscriptionAgent.process ?d = Raise _ |- _ =>
      rewrite E in Hp; injection Hp as <-
  end.
  repeat split.
  - eexists. split; [cbn; right; left; reflexivity|reflexivity].
  - intros p' [<-|[]]. cbn. lia.
  - cbn. eexists. reflexivity.
Qed.

(** C1, as the code has it. When a stage after intake raises, its node
    stores its label and the message in the state's error; the graph has
    no edge to END there, so the nodes that follow are run too, the whole
    chain of five, but no stage after the one that raised reaches the
    model; [process_call] returns an error record. *)
Theorem C1_failed_stage_then_error_record raw r n msg :
  invoke llm (initial_state raw) = Ok r ->
  n <> intake -> raises_at llm r n msg ->
  (exists s, In (n, s) (trace r) /\
             CallState.error s = PStr (error_label n ++ msg)) /\
  (forall p, In p (calls r) -> (position (stage_of p) <= position n)%nat) /\
  map fst (trace r)
  = [intake; transcription; summarization; quality_scoring; routing] /\
  (exists e, process_call llm raw = Ok (ErrorRecord (PStr e))).
Proof.
  unfold process_call. rewrite invoke_run_of. intros [= <-] Hn Hr.
  cbn [bind Monad_result ret].
  destruct n; [contradiction| | | |]; cbn [raises_at] in Hr.
  - destruct Hr as (s1 & Hin & Hnodes & Hp).
    destruct (@transcription_failure raw s1 msg Hin Hnodes Hp)
      as (H1 & H2 & H3 & e & H4).
    split; [exact H1|]. split; [exact H2|]. split; [exact H3|].
    exists e. rewrite H4. reflexivity.
  - destruct Hr as (p & Hin & Hst & Hm). rewrite <- Hst in Hn.
    destruct (@model_call_failure raw p msg Hin Hn Hm)
      as (H1 & H2 & H3 & e & H4). rewrite Hst in H1, H2.
    split; [exact H1|]. split; [exact H2|]. split; [exact H3|].
    exists e. rewrite H4. reflexivity.
  - destruct Hr as (p & Hin & Hst & Hm). rewrite <- Hst in Hn.
    destruct (@model_call_failure raw p msg Hin Hn Hm)
      as (H1 & H2 & H3 & e & H4). rewrite Hst in H1, H2.
    split; [exact H1|]. split; [exact H2|]. split; [exact H3|].
    exists e. rewrite H4. reflexivity.
  - destruct Hr as (p & Hin & Hst & Hm). rewrite <- Hst in Hn.
    destruct (@model_call_failure raw p msg Hin Hn Hm)
      as (H1 & H2 & H3 & e & H4). rewrite Hst in H1, H2.
    split; [exact H1|]. split; [exact H2|]. split; [exact H3|].
    exists e. rewrite H4. reflexivity.
Qed.
End Failures.

Lemma C1_witness :
  let R := Example.runtime [] in
  let llm := Example.summarizer_down in
  let r := run_of llm "Agent: hello" in
  (exists s, In (summarization, s) (trace r) /\
             CallState.error s = PStr "Summarization error: boom") /\
  (forall p, In p (calls r) -> (position (stage_of p) <= 2)%nat) /\
  map fst (trace r)
  = [intake; transcription; summarization; quality_scoring; routing] /\
  (exists e, process_call llm "Agent: hello" = Ok (ErrorRecord (PStr e))).
Proof.
  intros R llm r.
  apply (@C1_failed_stage_then_error_record R llm "Agent: hello" r
           summarization "boom").
  - reflexivity.
  - discriminate.
  - exists (SummarizationPrompt "Agent: hello"). cbn. tauto.
Defined.

(** C1 as stated fails on this run. The summarization call raises "boom";
    quality scoring and routing are run all the same, and what comes back
    is routing's own complaint about the missing summary, not
    "Summarization error: boom". *)
Lemma C1_counterexample :
  let R := Example.runtime [] in
  let llm := Example.summarizer_down in
  llm (SummarizationPrompt "Agent: hello") = Raise "boom" /\
  (exists r, invoke llm (initial_state "Agent: hello") = Ok r /\
     calls r
     = [IntakePrompt "Agent: hello"; SummarizationPrompt "Agent: hello"] /\
     map fst (trace r)
     = [intake; transcription; summarization; quality_scoring; routing]) /\
  process_call llm "Agent: hello"
  = Ok (ErrorRecord
          (PStr "Routing error: 'NoneType' object has no attribute 'category'")) /\
  ~ stops_at_failure llm "Agent: hello".
Proof.
  intros R llm. split; [reflexivity|]. split.
  - eexists. split; [reflexivity|]. split; reflexivity.
  - split; [reflexivity|]. intros H.
    destruct (H (run_of llm "Agent: hello") summarization "boom")
      as [E _]; [reflexivity | discriminate | |].
    + exists (SummarizationPrompt "Agent: hello"). cbn. tauto.
    + vm_compute in E. discriminate E.
Qed.

(** A transcription that raises: the intake response gives the speakers as
    the text "two", which the transcript record refuses. *)
Lemma transcription_can_raise :
  let R :=
    Example.runtime
      [(Example.speakers_as_text, Example.speakers_as_text_decoded)] in
  let llm : model := fun _ => Ok Example.speakers_as_text in
  raises_at llm (run_of llm "Agent: hello") transcription
    "validation error for CallTranscript: speaker_count" /\
  calls (run_of llm "Agent: hello") = [IntakePrompt "Agent: hello"].
Proof.
  intros R llm. split; [|reflexivity].
  eexists. split; [left; reflexivity|]. split; [cbn; tauto|reflexivity].
Qed.

(* ===================================================================== *)
(** ** An input that intake rejects *)
(* ===================================================================== *)

Section Rejection.
Context {R : Runtime} (llm : model).

(** What the intake agent returns is the model's response, decoded or
    replaced. *)
Lemma intake_process_inv raw d h h' :
  CallIntakeAgent.process llm raw h = (Ok d, h') ->
  exists content,
    llm (IntakePrompt raw) = Ok content /\
    d = try_except (CallIntakeAgent.parsed raw content)
          (CallIntakeAgent.fallback raw) /\
    h' = h ++ [IntakePrompt raw].
Proof.
  unfold CallIntakeAgent.process, llm_invoke.
  cbn -[try_except CallIntakeAgent.parsed].
  destruct (llm (IntakePrompt raw)) as [content|m]; [|discriminate].
  intros [= <- <-]. eauto.
Qed.

(** X6. When intake returns a falsy [is_valid], the run is the intake node
    alone, with one call to the model, and [process_call] returns an error
    record: the reason itself whenever the reason is truthy. *)
Lemma rejection_stops_after_intake raw d h :
  CallIntakeAgent.process llm raw [] = (Ok d, h) ->
  truthy (dict_get d "is_valid" (PBool false)) = false ->
  exists r e,
    invoke llm (initial_state raw) = Ok r /\
    map fst (trace r) = [intake] /\
    calls r = [IntakePrompt raw] /\
    process_call llm raw = Ok (ErrorRecord e) /\
    (truthy (dict_get d "reason" PNone) = true ->
     e = dict_get d "reason" PNone).
Proof.
  intros Hp Hv. destruct (intake_process_inv _ _ Hp) as (c & Ec & -> & _).
  unfold process_call. rewrite invoke_run_of. unfold run_of. cbv zeta.
  rewrite Ec, Hv. cbn [bind Monad_result ret final].
  unfold build. cbn [CallState.error CallState.set_error].
  destruct (truthy (dict_get _ "reason" PNone)) eqn:Er.
  - do 2 eexists. repeat split; reflexivity.
  - do 2 eexists. repeat split; try reflexivity. discriminate.
Qed.
End Rejection.

(** C2, at the response [{"is_valid": false, "reason": ""}]. Intake
    returns [is_valid] false with the empty reason; the run stops after
    intake, and the test [if result.get("error")] of [process_call] takes
    the empty reason for no error: what comes back is the failure to build
    an analysis from the empty state, not the reason. *)
Lemma C2_empty_reason_is_not_carried :
  let R :=
    Example.runtime
      [(Example.rejection_without_reason,
        Example.rejection_without_reason_decoded)] in
  let llm : model := fun _ => Ok Example.rejection_without_reason in
  fst (CallIntakeAgent.process llm "hello" [])
  = Ok [("is_valid", PBool false); ("reason", PStr "");
        ("estimated_speakers", PInt 2); ("transcript", PStr "hello")] /\
  (exists r, invoke llm (initial_state "hello") = Ok r /\
             map fst (trace r) = [intake] /\
             CallState.error (final r) = PStr "") /\
  process_call llm "hello"
  = Ok (ErrorRecord
          (PStr "Failed to build analysis: validation error for CallAnalysis: transcript, summary, qa_scores")) /\
  ~ rejection_carries_reason llm "hello".
Proof.
  intros R llm. split; [reflexivity|]. split.
  - eexists. split; [reflexivity|]. split; reflexivity.
  - split; [reflexivity|]. intros H.
    destruct (H _ _ "" eq_refl eq_refl eq_refl) as [E _].
    vm_compute in E. discriminate E.
Qed.

(* ===================================================================== *)
(** ** Responses that do not decode *)
(* ===================================================================== *)

Section Fallbacks.
Context {R : Runtime}.

Lemma loads_not_an_object content :
  not_an_object content ->
  match loads content with
  | Ok (PDict _) => False
  | _ => True
  end.
Proof.
  unfold not_an_object, loads.
  destruct (json_loads content) as [[]|]; auto.
Qed.

Lemma summary_refused content d :
  json_loads content = Some (PDict d) -> refused_summary d ->
  exists m, SummarizationAgent.parsed content = Raise m.
Proof.
  intros Hj. unfold refused_summary, SummarizationAgent.parsed, loads.
  rewrite Hj. cbn [bind Monad_result py_get].
  unfold CallSummary.new, validated, refusal.
  destruct (validate_list_str (dict_get d "key_points" _)),
    (validate_str (dict_get d "customer_issue" _)),
    (validate_str (dict_get d "resolution" _)),
    (SentimentType.of_value _), (CallCategory.of_value _),
    (validate_list_str (dict_get d "action_items" _));
    cbn; intros Hr; eauto;
    destruct Hr as [H|[H|[H|[[m H]|[[m H]|H]]]]]; discriminate.
Qed.

Lemma validated_none {A} model refused :
  exists m, validated model refused (@None A) = Raise m.
Proof. unfold validated. destruct refused; eauto. Qed.

Lemma scores_refused content d :
  json_loads content = Some (PDict d) -> refused_scores d ->
  exists m, QualityScoringAgent.parsed content = Raise m.
Proof.
  intros Hj (field & Hin & Hf). revert Hf.
  unfold QualityScoringAgent.parsed, loads. rewrite Hj.
  cbn [bind Monad_result py_get]. unfold QAScore.new.
  cbn [In] in Hin.
  destruct Hin as [<-|[<-|[<-|[<-|[<-|[]]]]]];
    repeat match goal with
      | |- context [match float_ ?x with _ => _ end] => destruct (float_ x)
      end;
    intros Hf; eauto;
    rewrite Hf, ?andb_false_r; cbn [andb]; apply validated_none.
Qed.

(** C3, as the code has it. A response that is not JSON, or is JSON for
    something other than an object, gets the fallback record of the stage,
    one and the same record at every such failure; at summarization and at
    quality scoring so does an object with a value that the record of the
    stage refuses. (A field that is missing gets its own default instead,
    and intake and routing take the values as they come.) *)
Theorem C3_fallback_when_decoding_fails (llm : model) (n : node)
    (content : string) :
  decoding_fails n content -> falls_back llm n content.
Proof.
  destruct n; cbn [decoding_fails falls_back]; intros H; auto.
  - intros raw h E. unfold CallIntakeAgent.process, llm_invoke.
    cbn [bind Monad_StExc ret fst]. rewrite E.
    unfold CallIntakeAgent.parsed. apply loads_not_an_object in H.
    destruct (loads content) as [[]|]; try contradiction; reflexivity.
  - intros t h E. unfold SummarizationAgent.process, llm_invoke, lift.
    cbn [bind Monad_StExc ret fst attr_of]. rewrite E. cbn [fst].
    destruct H as [H|(d & Hj & Hr)].
    + unfold SummarizationAgent.parsed. apply loads_not_an_object in H.
      destruct (loads content) as [[]|]; try contradiction; reflexivity.
    + destruct (summary_refused _ Hj Hr) as [m ->]. reflexivity.
  - intros t su h E. unfold QualityScoringAgent.process, llm_invoke, lift.
    cbn [bind Monad_StExc ret fst attr_of]. rewrite E. cbn [fst].
    destruct H as [H|(d & Hj & Hr)].
    + unfold QualityScoringAgent.parsed. apply loads_not_an_object in H.
      destruct (loads content) as [[]|]; try contradiction; reflexivity.
    + destruct (scores_refused _ Hj Hr) as [m ->]. reflexivity.
  - intros su q h E. unfold RoutingAgent.process, llm_invoke, lift.
    cbn [bind Monad_StExc ret fst attr_of]. rewrite E. cbn [fst].
    unfold RoutingAgent.parsed. apply loads_not_an_object in H.
    destruct (loads content) as [[]|]; try contradiction; reflexivity.
Qed.
End Fallbacks.

Lemma C3_witness :
  let R :=
    Example.runtime [(Example.angry_summary, Example.angry_summary_decoded)] in
  falls_back (fun _ => Ok Example.angry_summary) summarization
    Example.angry_summary.
Proof.
  intros R. apply (@C3_fallback_when_decoding_fails R).
  right. exists [("sentiment", PStr "angry")]. split; [reflexivity|].
  do 3 right. left. eexists. reflexivity.
Defined.

(** C3 as stated fails on these responses. The response [{}] lacks every
    field and the summary made of it is the six defaults, not the fallback record; the response
    [{"is_valid": "no"}] has a string where a boolean is due and intake
    returns it as it is. *)
Lemma C3_counterexample :
  let R :=
    Example.runtime
      [("{}", PDict []);
       (Example.is_valid_as_text, Example.is_valid_as_text_decoded)] in
  (forall t h,
     fst (SummarizationAgent.process (fun _ => Ok "{}") (Some t) h)
     = Ok (CallSummary.mk ["No key points extracted"] "Not identified"
             "Not specified" SentimentType.NEUTRAL CallCategory.GENERAL [])) /\
  ~ fallback_on_missing_field /\
  (forall raw h,
     fst (CallIntakeAgent.process (fun _ => Ok Example.is_valid_as_text) raw h)
     = Ok [("is_valid", PStr "no"); ("reason", PStr "Valid transcript");
           ("estimated_speakers", PInt 2); ("transcript", PStr raw)]) /\
  ~ fallback_on_wrong_type.
Proof.
  intros R. split; [reflexivity|]. split; [|split; [reflexivity|]].
  - intros H.
    assert (E := H (fun _ => Ok "{}") "{}" [] "key_points" eq_refl
                   (or_introl eq_refl) (ex_intro _ _ eq_refl)
                   (CallTranscript.mk "" None None) [] eq_refl).
    vm_compute in E. discriminate E.
  - intros H.
    assert (E := H (fun _ => Ok Example.is_valid_as_text)
                   Example.is_valid_as_text
                   [("is_valid", PStr "no")] (PStr "no") eq_refl eq_refl
                   ltac:(discriminate) "" [] eq_refl).
    vm_compute in E. discriminate E.
Qed.

(* ===================================================================== *)
(** ** Intake fails open *)
(* ===================================================================== *)

(** C4. When the response of the intake call is not JSON, the intake data
    has [is_valid] true, two estimated speakers and the raw input as its
    transcript; the input is accepted, and the run goes on through the
    five nodes. *)
Theorem C4_intake_fails_open {R : Runtime} (llm : model)
    (raw content : string) (h : list prompt) :
  llm (IntakePrompt raw) = Ok content ->
  json_loads content = None ->
  (exists d,
     fst (CallIntakeAgent.process llm raw h) = Ok d /\
     dict_item d "is_valid" = Ok (PBool true) /\
     dict_item d "estimated_speakers" = Ok (PInt 2) /\
     dict_item d "transcript" = Ok (PStr raw)) /\
  (exists r,
     invoke llm (initial_state raw) = Ok r /\
     map fst (trace r)
     = [intake; transcription; summarization; quality_scoring; routing]).
Proof.
  intros E Hj.
  assert (Hd : try_except (CallIntakeAgent.parsed raw content)
                 (CallIntakeAgent.fallback raw)
               = CallIntakeAgent.fallback raw).
  { unfold CallIntakeAgent.parsed, loads. rewrite Hj. reflexivity. }
  split.
  - exists (CallIntakeAgent.fallback raw). split.
    + unfold CallIntakeAgent.process, llm_invoke.
      cbn -[try_except CallIntakeAgent.parsed]. rewrite E, Hd. reflexivity.
    + repeat split.
  - eexists. split; [apply invoke_run_of|].
    unfold run_of, broken_run. cbv zeta. rewrite E, Hd.
    cbn [CallIntakeAgent.fallback dict_get String.eqb Ascii.eqb Bool.eqb
         truthy].
    repeat case_on_call llm; reflexivity.
Qed.

Lemma C4_witness :
  let R := Example.runtime [] in
  let llm := Example.summarizer_down in
  (exists d,
     fst (CallIntakeAgent.process llm "Agent: hello" []) = Ok d /\
     dict_item d "is_valid" = Ok (PBool true) /\
     dict_item d "estimated_speakers" = Ok (PInt 2) /\
     dict_item d "transcript" = Ok (PStr "Agent: hello")) /\
  (exists r,
     invoke llm (initial_state "Agent: hello") = Ok r /\
     map fst (trace r)
     = [intake; transcription; summarization; quality_scoring; routing]).
Proof.
  intros R llm.
  apply (@C4_intake_fails_open R llm "Agent: hello"
           "Looks like a valid transcript." []); reflexivity.
Defined.

(* ===================================================================== *)
(** ** Scores stay within their bounds *)
(* ===================================================================== *)

Lemma in_range_within x : QAScore.in_range x = true -> within_0_10 x.
Proof.
  unfold QAScore.in_range, float_ge, float_le, float_of_Z.
  destruct x as [q|[]|]; cbn; try discriminate.
  intros H. apply andb_true_iff in H. destruct H as [H0 H10].
  apply Qle_bool_iff in H0. apply Qle_bool_iff in H10.
  exists q. auto.
Qed.

Lemma QAScore_new_inv {R : Runtime} e p r c o q :
  QAScore.new e p r c o = Ok q ->
  q = QAScore.mk e p r c o /\
  QAScore.in_range e = true /\ QAScore.in_range p = true /\
  QAScore.in_range r = true /\ QAScore.in_range c = true /\
  QAScore.in_range o = true.
Proof.
  unfold QAScore.new, validated.
  destruct (QAScore.in_range e), (QAScore.in_range p), (QAScore.in_range r),
    (QAScore.in_range c), (QAScore.in_range o); cbn [andb];
    destruct (_ ++ _); try discriminate.
  intros [= <-]. auto 10.
Qed.

Lemma parsed_scores_in_range {R : Runtime} content q :
  QualityScoringAgent.parsed content = Ok q ->
  QAScore.in_range (QAScore.empathy q) = true /\
  QAScore.in_range (QAScore.professionalism q) = true /\
  QAScore.in_range (QAScore.resolution q) = true /\
  QAScore.in_range (QAScore.compliance q) = true /\
  QAScore.in_range (QAScore.overall q) = true.
Proof.
  unfold QualityScoringAgent.parsed.
  cbn [bind Monad_result].
  destruct (loads content) as [data|]; [|discriminate].
  repeat match goal with
    | |- context [match py_get ?v ?k ?x with _ => _ end] =>
        destruct (py_get v k x); [|discriminate]
    | |- context [match float_ ?x with _ => _ end] =>
        destruct (float_ x); [|discriminate]
    end.
  intros H. apply QAScore_new_inv in H. destruct H as (-> & H). exact H.
Qed.

(** C5. Every QAScore the quality stage returns, decoded or fallback, has
    its five fields in the closed interval from 0 to 10: a response with a
    score outside it is refused by the record's bounds and replaced by the
    fallback. *)
Theorem C5_scores_within_bounds {R : Runtime} (llm : model)
    (transcript : option CallTranscript.t) (summary : option CallSummary.t)
    (h : list prompt) (q : QAScore.t) :
  fst (QualityScoringAgent.process llm transcript summary h) = Ok q ->
  within_0_10 (QAScore.empathy q) /\
  within_0_10 (QAScore.professionalism q) /\
  within_0_10 (QAScore.resolution q) /\
  within_0_10 (QAScore.compliance q) /\
  within_0_10 (QAScore.overall q).
Proof.
  unfold QualityScoringAgent.process, llm_invoke, lift.
  cbn -[try_except QualityScoringAgent.parsed
        QualityScoringAgent.format_messages].
  destruct transcript as [t|]; [|discriminate].
  destruct summary as [su|]; [|discriminate].
  cbn -[try_except QualityScoringAgent.parsed
        QualityScoringAgent.format_messages].
  destruct (llm _) as [content|]; [|discriminate].
  cbn [fst]. intros [= <-]. unfold try_except.
  destruct (QualityScoringAgent.parsed content) as [q|] eqn:E.
  - apply parsed_scores_in_range in E.
    destruct E as (He & Hp & Hr & Hc & Ho).
    repeat split; apply in_range_within; assumption.
  - repeat split; apply in_range_within; reflexivity.
Qed.

Lemma C5_witness :
  let R :=
    Example.runtime
      [(Example.empathy_too_high, Example.empathy_too_high_decoded)] in
  let q := QualityScoringAgent.fallback in
  fst (QualityScoringAgent.process (fun _ => Ok Example.empathy_too_high)
         (Some Example.a_transcript) (Some Example.a_summary) [])
  = Ok q /\
  within_0_10 (QAScore.empathy q) /\
  within_0_10 (QAScore.professionalism q) /\
  within_0_10 (QAScore.resolution q) /\
  within_0_10 (QAScore.compliance q) /\
  within_0_10 (QAScore.overall q).
Proof.
  intros R q. split; [reflexivity|].
  apply (@C5_scores_within_bounds R (fun _ => Ok Example.empathy_too_high)
           (Some Example.a_transcript) (Some Example.a_summary) [] q).
  reflexivity.
Defined.

(* ===================================================================== *)
(** ** Transcript normalization *)
(* ===================================================================== *)

Lemma strict_strs_strings l : Example.strict_strs (map PStr l) = Some l.
Proof.
  induction l as [|s l IH]; cbn; [reflexivity|]. rewrite IH. reflexivity.
Qed.

(** The example runtime keeps well-typed inputs, as the laws ask. *)
Lemma example_runtime_laws table : RuntimeLaws (Example.runtime table).
Proof.
  constructor; cbn.
  - reflexivity.
  - apply strict_strs_strings.
  - reflexivity.
Qed.

(** C7. From intake data with transcript text [T] and a speaker estimate
    of 2, the transcription agent makes the record with text [T], speaker
    count 2 and no duration; its node stores that record and leaves the
    log of model calls as it was. *)
Theorem C7_normalization_is_pure {R : Runtime} {L : RuntimeLaws R}
    (T : string) (intake_data : pydict) :
  dict_item intake_data "transcript" = Ok (PStr T) ->
  dict_get intake_data "estimated_speakers" (PInt 2) = PInt 2 ->
  TranscriptionAgent.process intake_data
  = Ok (CallTranscript.mk T (Some 2) None) /\
  forall state made,
    CallState.intake_data state = intake_data ->
    returns_state transcription_node state made
    = (CallState.set_transcript (CallTranscript.mk T (Some 2) None) state,
       made).
Proof.
  intros Ht Hs.
  assert (E : TranscriptionAgent.process intake_data
              = Ok (CallTranscript.mk T (Some 2) None)).
  { unfold TranscriptionAgent.process. rewrite Ht, Hs.
    cbn [bind Monad_result]. unfold CallTranscript.new.
    rewrite validate_str_str, validate_optional_int_small by lia.
    reflexivity. }
  split; [exact E|].
  intros state made <-. rewrite transcription_node_eq, E. reflexivity.
Qed.

Lemma C7_witness :
  let R := Example.runtime [] in
  let d := CallIntakeAgent.fallback "Agent: hello" in
  TranscriptionAgent.process d
  = Ok (CallTranscript.mk "Agent: hello" (Some 2) None) /\
  forall state made,
    CallState.intake_data state = d ->
    returns_state transcription_node state made
    = (CallState.set_transcript
         (CallTranscript.mk "Agent: hello" (Some 2) None) state, made).
Proof.
  intros R d.
  apply (@C7_normalization_is_pure R (example_runtime_laws [])
           "Agent: hello" d); reflexivity.
Defined.

(* ===================================================================== *)
(** ** What [process_call] returns *)
(* ===================================================================== *)

Lemma truthy_prefixed a s m : truthy (PStr (String a s ++ m)) = true.
Proof. reflexivity. Qed.

Section Outcome.
Context {R : Runtime} (llm : model).

(** C6. [process_call] returns, and what it returns is either an analysis
    or an error record. An analysis comes from a run of all five nodes that
    left no error, and its five parts are what the stages stored: the
    transcript, the summary and the scores of the final state, and its two
    lists validated. An error record carries a non-empty reason, a string
    unless it is the reason value of the intake response itself. *)
Theorem C6_complete_analysis_or_error (raw : string) :
  exists r o,
    invoke llm (initial_state raw) = Ok r /\
    process_call llm raw = Ok o /\
    match o with
    | Analysis a =>
        map fst (trace r)
        = [intake; transcription; summarization; quality_scoring; routing] /\
        CallState.error (final r) = PNone /\
        CallState.transcript (final r) = Some (CallAnalysis.transcript a) /\
        CallState.summary (final r) = Some (CallAnalysis.summary a) /\
        CallState.qa_scores (final r) = Some (CallAnalysis.qa_scores a) /\
        validate_list_str (CallState.recommendations (final r))
        = Some (CallAnalysis.recommendations a) /\
        validate_list_str (CallState.tags (final r))
        = Some (CallAnalysis.tags a)
    | ErrorRecord e =>
        truthy e = true /\
        (is_str e = true \/
         e = dict_get (CallState.intake_data (final r)) "reason" PNone)
    end.
Proof.
  exists (run_of llm raw), (build (final (run_of llm raw))).
  split; [apply invoke_run_of|].
  split; [unfold process_call; rewrite invoke_run_of; reflexivity|].
  run_cases llm.
  all: unfold build, CallAnalysis.new, validated, refusal; tidy;
       rewrite ?truthy_prefixed; auto.
  all: cbn [truthy];
       repeat match goal with
         | |- context [validate_list_str ?x] =>
             destruct (validate_list_str x) eqn:?
         | |- context [if truthy ?x then _ else _] =>
             destruct (truthy x) eqn:?
         end; cbn [app]; rewrite ?truthy_prefixed; auto 10.
Qed.
End Outcome.

(** C6 as stated fails at the response
    [{"is_valid": false, "reason": 42}]. Intake passes the reason on as it
    is, [intake_node] stores it as the error, and [process_call] returns
    the record [{"error": 42}]: its reason is the number, not a string. *)
Lemma C6_counterexample :
  let R :=
    Example.runtime
      [(Example.rejection_with_a_number,
        Example.rejection_with_a_number_decoded)] in
  let llm : model := fun _ => Ok Example.rejection_with_a_number in
  fst (CallIntakeAgent.process llm "hello" [])
  = Ok [("is_valid", PBool false); ("reason", PInt 42);
        ("estimated_speakers", PInt 2); ("transcript", PStr "hello")] /\
  (exists r, invoke llm (initial_state "hello") = Ok r /\
             map fst (trace r) = [intake] /\
             CallState.error (final r) = PInt 42) /\
  process_call llm "hello" = Ok (ErrorRecord (PInt 42)) /\
  ~ analysis_or_reason_string llm "hello".
Proof.
  intros R llm. split; [reflexivity|]. split.
  - eexists. split; [reflexivity|]. split; reflexivity.
  - split; [reflexivity|]. intros (o & E & H).
    vm_compute in E. injection E as <-. discriminate H.
Qed.

(** A run that completes: the support call comes back as an analysis with
    its five parts. *)
Lemma support_call_is_analysed :
  let R := Example.runtime Example.support_call_table in
  process_call Example.support_call_model "Agent: Thank you for calling."
  = Ok (Analysis
          (CallAnalysis.mk
             (CallTranscript.mk "Agent: Thank you for calling." (Some 2) None)
             (CallSummary.mk ["modem reset"] "internet drops" "modem reset"
                SentimentType.POSITIVE CallCategory.TECHNICAL_SUPPORT [])
             (QAScore.mk (FNum (9 # 1)) (FNum (9 # 1)) (FNum (17 # 2))
                (FNum (9 # 1)) (FNum (9 # 1)))
             ["keep it up"] ["internet"; "modem"])).
Proof. reflexivity. Qed.

(* ===================================================================== *)
(** ** The error field *)
(* ===================================================================== *)

Section ErrorField.
Context {R : Runtime} (llm : model).

Lemma after_eq n s h :
  after llm n (s, h) = returns_state (node_function llm n) s h.
Proof. reflexivity. Qed.

(** No node reads the error: run on a state with another error, it makes
    the same calls and returns the same state, up to the error. *)
Lemma error_is_not_read n s h e :
  snd (after llm n (CallState.set_error e s, h)) = snd (after llm n (s, h)) /\
  CallState.set_error PNone (fst (after llm n (CallState.set_error e s, h)))
  = CallState.set_error PNone (fst (after llm n (s, h))).
Proof.
  rewrite !after_eq.
  destruct n; cbn [node_function];
    rewrite ?intake_node_eq, ?transcription_node_eq, ?summarization_node_eq,
      ?quality_scoring_node_eq, ?routing_node_eq;
    cbn [CallState.set_error CallState.raw_input CallState.intake_data
         CallState.transcript CallState.summary CallState.qa_scores];
    repeat match goal with
      | |- context [match ?x with _ => _ end] => destruct x
      end; split; reflexivity.
Qed.

(** After intake, a node keeps the error or stores a string. *)
Lemma error_not_reset n s h :
  n <> intake -> CallState.error s <> PNone ->
  CallState.error (fst (after llm n (s, h))) <> PNone.
Proof.
  intros Hn He. rewrite after_eq.
  destruct n; [contradiction| | | |]; cbn [node_function];
    rewrite ?transcription_node_eq, ?summarization_node_eq,
      ?quality_scoring_node_eq, ?routing_node_eq;
    repeat match goal with
      | |- context [match ?x with _ => _ end] => destruct x
      end; cbn; solve [assumption | discriminate].
Qed.

Lemma run_of_error_kept raw : error_kept (trace (run_of llm raw)).
Proof.
  run_cases llm.
  all: cbn; repeat split; intros; repeat constructor; cbn;
       try discriminate; try (exfalso; congruence).
Qed.

(** A final state with a truthy error, or without a transcript, makes an
    error record. *)
Lemma build_error_record s :
  truthy (CallState.error s) = true \/ CallState.transcript s = None ->
  exists e, build s = ErrorRecord e.
Proof.
  unfold build. destruct (truthy (CallState.error s)); [eauto|].
  intros [H|H]; [discriminate|]. rewrite H.
  unfold CallAnalysis.new, validated, refusal. cbn. eauto.
Qed.

Lemma run_of_error_record raw :
  (exists n s, In (n, s) (trace (run_of llm raw)) /\
               CallState.error s <> PNone) ->
  exists e, build (final (run_of llm raw)) = ErrorRecord e.
Proof.
  run_cases llm.
  all: cbn [trace final In app fall_through last snd];
       intros (n & s & Hin & He).
  all: try (apply build_error_record; cbn; rewrite ?truthy_prefixed; auto;
            fail).
  repeat (destruct Hin as [[= <- <-]|Hin]; [cbn in He; congruence|]).
  contradiction.
Qed.

(** C10. No node reads the error field, and none of the four nodes after
    intake ever puts [None] back where an error is stored. So along the
    trace of a run a state with an error is followed only by states with
    an error, and a run in which some node stored an error ends with
    [process_call] returning an error record. *)
Theorem C10_error_is_never_reset (raw : string) :
  (forall n s h e,
     snd (after llm n (CallState.set_error e s, h)) = snd (after llm n (s, h)) /\
     CallState.set_error PNone (fst (after llm n (CallState.set_error e s, h)))
     = CallState.set_error PNone (fst (after llm n (s, h)))) /\
  (forall n s h,
     n <> intake -> CallState.error s <> PNone ->
     CallState.error (fst (after llm n (s, h))) <> PNone) /\
  exists r,
    invoke llm (initial_state raw) = Ok r /\
    error_kept (trace r) /\
    ((exists n s, In (n, s) (trace r) /\ CallState.error s <> PNone) ->
     exists e, process_call llm raw = Ok (ErrorRecord e)).
Proof.
  split; [exact error_is_not_read|]. split; [exact error_not_reset|].
  exists (run_of llm raw). split; [apply invoke_run_of|].
  split; [apply run_of_error_kept|].
  intros H. destruct (run_of_error_record raw H) as [e He].
  exists e. unfold process_call. rewrite invoke_run_of.
  cbn [bind Monad_result ret]. rewrite He. reflexivity.
Qed.
End ErrorField.

(* ===================================================================== *)
(** ** The temporary file of an upload *)
(* ===================================================================== *)

Section Upload.
Context {R : Runtime} (host : App.Host) (llm : model).

Lemma not_in_without p fs : ~ In p (App.without p fs).
Proof.
  unfold App.without. intros H. apply filter_In in H. destruct H as [_ H].
  rewrite String.eqb_refl in H. discriminate.
Qed.

Lemma exists_false_not_in p fs : App.exists_ p fs = false -> ~ In p fs.
Proof.
  unfold App.exists_. intros H Hin.
  assert (E : existsb (String.eqb p) fs = true).
  { apply existsb_exists. exists p. split; [exact Hin|apply String.eqb_refl]. }
  congruence.
Qed.

(** Where the removal does not fail, the file is gone after the cleanup,
    and nothing else of the world has changed. *)
Lemma cleanup_temp_file_removes p w :
  App.os_remove host p = true ->
  ~ In p (App.files (snd (App.cleanup_temp_file host p w))).
Proof.
  intros Hr. unfold App.cleanup_temp_file, App.get, App.update.
  cbn [bind Monad_StExc]. rewrite Hr, andb_true_r.
  destruct (App.exists_ p (App.files w)) eqn:E; cbn.
  - apply not_in_without.
  - apply exists_false_not_in, E.
Qed.

Lemma cleanup_if_set_removes p w :
  App.temp_file_path w = Some p -> p <> "" ->
  App.os_remove host p = true ->
  ~ In p (App.files (snd (App.cleanup_if_set host w))).
Proof.
  intros Hp Hne Hr. unfold App.cleanup_if_set, App.get.
  cbn [bind Monad_StExc]. rewrite Hp. cbn [App.nonempty].
  apply String.eqb_neq in Hne. rewrite Hne.
  apply cleanup_temp_file_removes, Hr.
Qed.

(** The [finally] of the analysis removes the file, however the analysis
    ends. *)
Lemma analyze_removes text p w :
  App.temp_file_path w = Some p -> p <> "" ->
  App.os_remove host p = true ->
  ~ In p (App.files (snd (App.analyze host llm text w))).
Proof.
  intros Hp Hne Hr. unfold App.analyze, App.finally, lift, App.update.
  cbn -[process_call App.cleanup_if_set String.append].
  destruct (process_call llm text) as [[a|e]|m];
    cbn -[App.cleanup_if_set String.append];
    apply cleanup_if_set_removes; auto.
Qed.

Lemma from_audio_raise f p m w :
  saved host f p -> App.os_remove host p = true ->
  App.transcriptions_create host p = Raise m ->
  let w' := snd (App.from_audio host f w) in
  ~ In p (App.files w') /\
  App.transcript_to_process w' = App.transcript_to_process w.
Proof.
  intros (Hn & Hne & Hw) Hr Ht.
  unfold App.from_audio, App.save_uploaded_audio, App.transcribe_audio,
    catch, lift, App.update.
  cbn -[App.cleanup_if_set String.append App.without].
  rewrite Hn. cbn -[App.cleanup_if_set String.append App.without].
  rewrite Hw. cbn -[App.cleanup_if_set String.append App.without].
  rewrite Ht. cbn -[App.cleanup_if_set String.append App.without].
  split.
  - apply cleanup_if_set_removes; auto.
  - unfold App.cleanup_if_set, App.get, App.cleanup_temp_file, App.update.
    cbn -[String.append App.without]. apply String.eqb_neq in Hne.
    rewrite Hne, Hr.
    destruct (App.exists_ _ _ && true); reflexivity.
Qed.

Lemma from_audio_ok f p text w :
  saved host f p -> 
  App.transcriptions_create host p = Ok text ->
  let w' := snd (App.from_audio host f w) in
  App.files w' = p :: App.without p (App.files w) /\
  App.temp_file_path w' = Some p /\
  App.transcript_to_process w' = Some text.
Proof.
  intros (Hn & Hne & Hw) Ht.
  unfold App.from_audio, App.save_uploaded_audio, App.transcribe_audio,
    catch, lift, App.update.
  cbn -[App.cleanup_if_set String.append App.without].
  rewrite Hn. cbn -[App.cleanup_if_set String.append App.without].
  rewrite Hw. cbn -[App.cleanup_if_set String.append App.without].
  rewrite Ht. cbn -[App.cleanup_if_set String.append App.without].
  auto.
Qed.

(** The audio branch catches what it raises. *)
Lemma from_audio_returns f w : fst (App.from_audio host f w) = Ok tt.
Proof.
  unfold App.from_audio, App.save_uploaded_audio, App.transcribe_audio,
    App.cleanup_if_set, App.cleanup_temp_file, catch, lift, App.update,
    App.get.
  cbn -[String.append App.without].
  repeat match goal with
    | |- context [match ?x with _ => _ end] => destruct x
    | |- context [if ?x then _ else _] => destruct x
    | u : unit |- _ => destruct u
    end; reflexivity.
Qed.

Lemma analyze_call_audio_eq f text w :
  App.analyze_call host llm (Some f) text w =
  let w0 :=
    App.set_temp_file_path None (App.set_transcript_to_process None w) in
  let w1 := snd (App.from_audio host f w0) in
  match App.nonempty (App.transcript_to_process w1) with
  | Some t => App.analyze host llm t w1
  | None => (Ok tt, w1)
  end.
Proof.
  unfold App.analyze_call, App.update, App.get.
  cbn -[App.from_audio App.analyze].
  assert (H := from_audio_returns f
                 (App.set_temp_file_path None
                    (App.set_transcript_to_process None w))).
  destruct (App.from_audio host f _) as [r w1]. cbn [fst snd] in *.
  subst r. destruct (App.nonempty _); reflexivity.
Qed.

(** X19. Where the transcription raises, or returns a text that is not empty,
    the file of the upload is gone when the handler is left. *)
Lemma upload_removed_otherwise f p text w :
  saved host f p -> App.os_remove host p = true ->
  match App.transcriptions_create host p with
  | Ok t => t <> ""
  | Raise _ => True
  end ->
  ~ In p (App.files (snd (App.analyze_call host llm (Some f) text w))).
Proof.
  intros Hs Hr Ht. rewrite analyze_call_audio_eq. cbv zeta.
  destruct (App.transcriptions_create host p) as [t|m] eqn:E.
  - destruct (from_audio_ok
                (App.set_temp_file_path None
                   (App.set_transcript_to_process None w)) Hs E)
      as (_ & Hp & Ht').
    rewrite Ht'. cbn [App.nonempty]. apply String.eqb_neq in Ht.
    rewrite Ht. destruct Hs as (_ & Hne & _).
    apply analyze_removes; auto.
  - destruct (from_audio_raise
                (App.set_temp_file_path None
                   (App.set_transcript_to_process None w)) Hs Hr E)
      as (Hf & Ht').
    rewrite Ht'. cbn. exact Hf.
Qed.
End Upload.

(** C9, at an upload of silence. The file is saved and transcribed to the
    empty text; [if transcript_to_process:] then skips the block whose
    [finally] removes the file, the [except] that removes it was not
    entered either, and the handler is left with the file on disk. *)
Lemma C9_silent_upload_leaves_its_file :
  let R := Example.runtime [] in
  let click :=
    App.analyze_call Example.silent_host Example.summarizer_down
      (Some Example.silence) "" (App.before_click []) in
  saved Example.silent_host Example.silence "/tmp/tmpk3x9.wav" /\
  App.transcriptions_create Example.silent_host "/tmp/tmpk3x9.wav" = Ok "" /\
  fst click = Ok tt /\
  App.temp_file_path (snd click) = Some "/tmp/tmpk3x9.wav" /\
  App.files (snd click) = ["/tmp/tmpk3x9.wav"] /\
  ~ upload_always_removed Example.silent_host Example.summarizer_down.
Proof.
  intros R click.
  assert (Hs : saved Example.silent_host Example.silence "/tmp/tmpk3x9.wav").
  { repeat split. discriminate. }
  repeat split; try reflexivity; try discriminate.
  intros H. apply (H _ _ "" (App.before_click []) Hs). cbn. auto.
Qed.

(* ===================================================================== *)
(** ** Further properties: the nodes *)
(* ===================================================================== *)

Section Nodes.
Context {R : Runtime} (llm : model).

(** X1. Each stage owns its slot of the state: a node leaves the raw input
    and the slots of the other stages as they were. *)
Theorem node_writes_its_own_slot n s h :
  let s' := fst (after llm n (s, h)) in
  CallState.raw_input s' = CallState.raw_input s /\
  (n <> intake -> CallState.intake_data s' = CallState.intake_data s) /\
  (n <> transcription -> CallState.transcript s' = CallState.transcript s) /\
  (n <> summarization -> CallState.summary s' = CallState.summary s) /\
  (n <> quality_scoring ->
   CallState.qa_scores s' = CallState.qa_scores s) /\
  (n <> routing ->
   CallState.recommendations s' = CallState.recommendations s /\
   CallState.tags s' = CallState.tags s).
Proof.
  cbv zeta. rewrite after_eq.
  destruct n; cbn [node_function];
    rewrite ?intake_node_eq, ?transcription_node_eq, ?summarization_node_eq,
      ?quality_scoring_node_eq, ?routing_node_eq;
    cbv zeta;
    repeat (name_decoded;
            match goal with
            | |- context [match ?x with _ => _ end] => destruct x eqn:?
            end);
    name_decoded; cbn; repeat split; intros; congruence.
Qed.

(** X2. A node calls the model at most once, with a prompt of its own stage,
    and never retries: the log grows by that one call or not at all. *)
Theorem node_calls_at_most_once n s h :
  let h' := snd (after llm n (s, h)) in
  h' = h \/ exists p, h' = h ++ [p] /\ stage_of p = n.
Proof.
  cbv zeta. rewrite after_eq.
  destruct n; cbn [node_function];
    rewrite ?intake_node_eq, ?transcription_node_eq, ?summarization_node_eq,
      ?quality_scoring_node_eq, ?routing_node_eq;
    cbv zeta;
    repeat (name_decoded;
            match goal with
            | |- context [match ?x with _ => _ end] => destruct x
            end);
    cbn [snd]; eauto.
Qed.
End Nodes.

(* ===================================================================== *)
(** ** Further properties: the run *)
(* ===================================================================== *)

Section Runs.
Context {R : Runtime} (llm : model).

(** X3. From any state, the graph stops within its step limit, after intake
    alone or after the whole chain: it goes on exactly when the
    [is_valid] that intake left in the state is truthy. *)
Theorem run_is_intake_or_whole_chain (s0 : CallState.t) :
  exists r s1,
    invoke llm s0 = Ok r /\
    hd_error (trace r) = Some (intake, s1) /\
    map fst (trace r)
    = (if truthy (dict_get (CallState.intake_data s1) "is_valid"
                    (PBool false))
       then chain else [intake]).
Proof.
  rewrite invoke_eq. cbv zeta.
  destruct (truthy _) eqn:E; do 2 eexists;
    (split; [reflexivity|]); (split; [reflexivity|]);
    cbn [fst snd]; rewrite E; reflexivity.
Qed.

(** X4. The calls of a run follow the chain: the first is the intake call on
    the raw input, and the stages called are the first one, two, three or
    four of intake, summarization, quality scoring, routing, each once. *)
Theorem calls_follow_the_chain (raw : string) :
  exists r k,
    invoke llm (initial_state raw) = Ok r /\
    hd_error (calls r) = Some (IntakePrompt raw) /\
    (1 <= k <= 4)%nat /\
    map stage_of (calls r) = firstn k calling_stages.
Proof.
  exists (run_of llm raw).
  enough (exists k, hd_error (calls (run_of llm raw)) = Some (IntakePrompt raw)
                    /\ (1 <= k <= 4)%nat /\
                    map stage_of (calls (run_of llm raw))
                    = firstn k calling_stages)
    as (k & H) by (exists k; split; [apply invoke_run_of|exact H]).
  run_cases llm.
  all: cbn [calls hd_error map stage_of QualityScoringAgent.format_messages
            RoutingAgent.format_messages].
  all: first [ exists 1%nat; repeat split; try lia; reflexivity
             | exists 2%nat; repeat split; try lia; reflexivity
             | exists 3%nat; repeat split; try lia; reflexivity
             | exists 4%nat; repeat split; try lia; reflexivity ].
Qed.

(** X5. When the intake call itself raises, the run is the intake node alone
    and the error record carries that message under intake's label. *)
Theorem intake_failure_is_carried (raw msg : string) :
  llm (IntakePrompt raw) = Raise msg ->
  process_call llm raw = Ok (ErrorRecord (PStr ("Intake error: " ++ msg))) /\
  exists r,
    invoke llm (initial_state raw) = Ok r /\
    map fst (trace r) = [intake] /\ calls r = [IntakePrompt raw].
Proof.
  intros H. unfold process_call. rewrite invoke_run_of.
  unfold run_of. cbv zeta. rewrite H. split; [reflexivity|].
  eexists. split; [reflexivity|]. split; reflexivity.
Qed.
End Runs.

(* ===================================================================== *)
(** ** Further properties: the analysis *)
(* ===================================================================== *)

Section Analyses.
Context {R : Runtime} (llm : model).

(** What lies behind an analysis: the four responses and what each stage
    made of them. *)
Lemma analysis_inv raw a :
  process_call llm raw = Ok (Analysis a) ->
  exists c1 c3 c4 c5,
    let d :=
      try_except (CallIntakeAgent.parsed raw c1)
        (CallIntakeAgent.fallback raw) in
    let t := CallAnalysis.transcript a in
    let su := CallAnalysis.summary a in
    let q := CallAnalysis.qa_scores a in
    let rd :=
      try_except (RoutingAgent.parsed su c5) (RoutingAgent.fallback su) in
    llm (IntakePrompt raw) = Ok c1 /\
    truthy (dict_get d "is_valid" (PBool false)) = true /\
    TranscriptionAgent.process d = Ok t /\
    llm (SummarizationPrompt (CallTranscript.text t)) = Ok c3 /\
    su = try_except (SummarizationAgent.parsed c3)
           SummarizationAgent.fallback /\
    llm (QualityScoringAgent.format_messages t su) = Ok c4 /\
    q = try_except (QualityScoringAgent.parsed c4)
          QualityScoringAgent.fallback /\
    llm (RoutingAgent.format_messages su q) = Ok c5 /\
    validate_list_str (dict_get rd "recommendations" PNone)
    = Some (CallAnalysis.recommendations a) /\
    validate_list_str (dict_get rd "tags" PNone)
    = Some (CallAnalysis.tags a) /\
    calls (run_of llm raw)
    = [IntakePrompt raw; SummarizationPrompt (CallTranscript.text t);
       QualityScoringAgent.format_messages t su;
       RoutingAgent.format_messages su q].
Proof.
  unfold process_call. rewrite invoke_run_of. cbn [bind Monad_result ret].
  intros [= H]. revert H.
  unfold run_of, broken_run, last_state. cbv zeta.
  repeat case_on_call llm.
  all: unfold build, CallAnalysis.new, validated, refusal; tidy;
       rewrite ?truthy_prefixed; cbn [truthy]; try discriminate.
  all: repeat match goal with
         | |- context [validate_list_str ?x] =>
             destruct (validate_list_str x) eqn:?
         | |- context [if truthy ?x then _ else _] =>
             destruct (truthy x) eqn:?
         end; cbn [app]; try discriminate.
  intros [= <-]. cbn [CallAnalysis.transcript CallAnalysis.summary
                      CallAnalysis.qa_scores CallAnalysis.recommendations
                      CallAnalysis.tags].
  do 4 eexists. repeat split; eassumption || reflexivity.
Qed.

(** X10. An analysis is the four agents applied in turn: the transcript made of
    the intake data, the summary of that transcript, the scores of both,
    the routing data of summary and scores, with its two lists validated;
    the model was called four times for it. *)
Theorem analysis_is_the_agents_in_turn raw a :
  process_call llm raw = Ok (Analysis a) ->
  let t := CallAnalysis.transcript a in
  let su := CallAnalysis.summary a in
  let q := CallAnalysis.qa_scores a in
  exists d rd,
    fst (CallIntakeAgent.process llm raw []) = Ok d /\
    truthy (dict_get d "is_valid" (PBool false)) = true /\
    TranscriptionAgent.process d = Ok t /\
    (forall h, fst (SummarizationAgent.process llm (Some t) h) = Ok su) /\
    (forall h,
       fst (QualityScoringAgent.process llm (Some t) (Some su) h) = Ok q) /\
    (forall h, fst (RoutingAgent.process llm (Some su) (Some q) h) = Ok rd) /\
    validate_list_str (dict_get rd "recommendations" PNone)
    = Some (CallAnalysis.recommendations a) /\
    validate_list_str (dict_get rd "tags" PNone)
    = Some (CallAnalysis.tags a) /\
    exists r, invoke llm (initial_state raw) = Ok r /\
              map stage_of (calls r) = calling_stages.
Proof.
  intros H. cbv zeta.
  destruct (analysis_inv _ H)
    as (c1 & c3 & c4 & c5 & E1 & Ev & Et & E3 & Es & E4 & Eq & E5 & Hrc & Htg
        & Hc).
  do 2 eexists.
  split.
  { unfold CallIntakeAgent.process, llm_invoke.
    cbn -[try_except CallIntakeAgent.parsed]. rewrite E1. reflexivity. }
  split; [exact Ev|]. split; [exact Et|].
  split.
  { intros h. unfold SummarizationAgent.process, llm_invoke, lift.
    cbn -[try_except SummarizationAgent.parsed]. rewrite E3, Es.
    reflexivity. }
  split.
  { intros h. unfold QualityScoringAgent.process, llm_invoke, lift.
    cbn -[try_except QualityScoringAgent.parsed
          QualityScoringAgent.format_messages].
    rewrite E4, Eq. reflexivity. }
  split.
  { intros h. unfold RoutingAgent.process, llm_invoke, lift.
    cbn -[try_except RoutingAgent.parsed RoutingAgent.format_messages].
    rewrite E5. reflexivity. }
  split; [exact Hrc|]. split; [exact Htg|].
  eexists. split; [apply invoke_run_of|]. rewrite Hc. reflexivity.
Qed.

Lemma CallTranscript_new_inv tx sc duration t :
  CallTranscript.new tx sc duration = Ok t ->
  validate_str tx = Some (CallTranscript.text t) /\
  validate_optional_int sc = Some (CallTranscript.speaker_count t) /\
  CallTranscript.duration t = duration.
Proof.
  unfold CallTranscript.new, validated, refusal.
  destruct (validate_str tx), (validate_optional_int sc); cbn;
    try discriminate.
  intros [= <-]. auto.
Qed.

(** X11. The transcript of an analysis is the raw input, as it was given and
    without a duration, and it is that text the summarizer was asked
    about: no response of the model can change it. *)
Theorem analysis_keeps_the_raw_input {L : RuntimeLaws R} raw a :
  process_call llm raw = Ok (Analysis a) ->
  CallTranscript.text (CallAnalysis.transcript a) = raw /\
  CallTranscript.duration (CallAnalysis.transcript a) = None /\
  exists r, invoke llm (initial_state raw) = Ok r /\
            In (SummarizationPrompt raw) (calls r).
Proof.
  intros H.
  destruct (analysis_inv _ H)
    as (c1 & c3 & c4 & c5 & E1 & Ev & Et & E3 & Es & E4 & Eq & E5 & Hrc & Htg
        & Hc).
  cbv zeta in *.
  destruct (intake_reply_shape raw c1) as (v & rs & n & Ed).
  rewrite Ed in Et. unfold TranscriptionAgent.process in Et.
  cbn -[CallTranscript.new] in Et.
  apply CallTranscript_new_inv in Et. destruct Et as (Htx & _ & Hd).
  rewrite validate_str_str in Htx. injection Htx as Htx.
  split; [auto|]. split; [exact Hd|].
  eexists. split; [apply invoke_run_of|]. rewrite Hc, <- Htx. cbn. auto.
Qed.

(** X12. The five scores of an analysis lie between 0 and 10. *)
Theorem analysis_scores_within_bounds raw a :
  process_call llm raw = Ok (Analysis a) ->
  let q := CallAnalysis.qa_scores a in
  within_0_10 (QAScore.empathy q) /\
  within_0_10 (QAScore.professionalism q) /\
  within_0_10 (QAScore.resolution q) /\
  within_0_10 (QAScore.compliance q) /\
  within_0_10 (QAScore.overall q).
Proof.
  intros H.
  destruct (analysis_inv _ H)
    as (c1 & c3 & c4 & c5 & E1 & Ev & Et & E3 & Es & E4 & Eq & E5 & Hrc & Htg
        & Hc).
  cbv zeta in *. rewrite Eq. unfold try_except.
  destruct (QualityScoringAgent.parsed c4) as [q|] eqn:E.
  - apply parsed_scores_in_range in E.
    destruct E as (He & Hp & Hr & Hc' & Ho).
    repeat split; apply in_range_within; assumption.
  - repeat split; apply in_range_within; reflexivity.
Qed.
End Analyses.

Lemma analysis_is_the_agents_in_turn_witness :
  let R := Example.runtime Example.support_call_table in
  let llm := Example.support_call_model in
  let a := Sample.support_call_analysis in
  let t := CallAnalysis.transcript a in
  let su := CallAnalysis.summary a in
  let q := CallAnalysis.qa_scores a in
  exists d rd,
    fst (CallIntakeAgent.process llm Sample.support_call []) = Ok d /\
    truthy (dict_get d "is_valid" (PBool false)) = true /\
    TranscriptionAgent.process d = Ok t /\
    (forall h, fst (SummarizationAgent.process llm (Some t) h) = Ok su) /\
    (forall h,
       fst (QualityScoringAgent.process llm (Some t) (Some su) h) = Ok q) /\
    (forall h, fst (RoutingAgent.process llm (Some su) (Some q) h) = Ok rd) /\
    validate_list_str (dict_get rd "recommendations" PNone)
    = Some (CallAnalysis.recommendations a) /\
    validate_list_str (dict_get rd "tags" PNone)
    = Some (CallAnalysis.tags a) /\
    exists r, invoke llm (initial_state Sample.support_call) = Ok r /\
              map stage_of (calls r) = calling_stages.
Proof.
  intros R llm a.
  apply (@analysis_is_the_agents_in_turn R llm Sample.support_call a).
  reflexivity.
Defined.

Lemma analysis_keeps_the_raw_input_witness :
  let R := Example.runtime Example.support_call_table in
  let llm := Example.support_call_model in
  let a := Sample.support_call_analysis in
  CallTranscript.text (CallAnalysis.transcript a) = Sample.support_call /\
  CallTranscript.duration (CallAnalysis.transcript a) = None /\
  exists r, invoke llm (initial_state Sample.support_call) = Ok r /\
            In (SummarizationPrompt Sample.support_call) (calls r).
Proof.
  intros R llm a.
  apply (@analysis_keeps_the_raw_input R llm
           (example_runtime_laws Example.support_call_table)
           Sample.support_call a).
  reflexivity.
Defined.

Lemma analysis_scores_within_bounds_witness :
  let R := Example.runtime Example.support_call_table in
  let q := CallAnalysis.qa_scores Sample.support_call_analysis in
  within_0_10 (QAScore.empathy q) /\
  within_0_10 (QAScore.professionalism q) /\
  within_0_10 (QAScore.resolution q) /\
  within_0_10 (QAScore.compliance q) /\
  within_0_10 (QAScore.overall q).
Proof.
  intros R.
  apply (@analysis_scores_within_bounds R Example.support_call_model
           Sample.support_call Sample.support_call_analysis).
  reflexivity.
Defined.

Lemma intake_failure_is_carried_witness :
  let R := Example.runtime [] in
  let llm : model := fun _ => Raise "connection refused" in
  process_call llm "Agent: hello"
  = Ok (ErrorRecord (PStr "Intake error: connection refused")) /\
  exists r,
    invoke llm (initial_state "Agent: hello") = Ok r /\
    map fst (trace r) = [intake] /\ calls r = [IntakePrompt "Agent: hello"].
Proof.
  intros R llm.
  apply (@intake_failure_is_carried R llm "Agent: hello" "connection refused").
  reflexivity.
Defined.

(* ===================================================================== *)
(** ** Further properties: failures and fallbacks *)
(* ===================================================================== *)

Section MoreFailures.
Context {R : Runtime} (llm : model).

Lemma late_model_call_failure raw p msg :
  let r := run_of llm raw in
  In p (calls r) -> stage_of p <> intake -> llm p = Raise msg ->
  build (final r)
  = ErrorRecord
      (PStr
         (if position (stage_of p) =? 4 then "Routing error: " ++ msg
          else "Routing error: 'NoneType' object has no attribute '"
               ++ routing_trips_on (stage_of p) ++ "'"))%nat.
Proof.
  unfold run_of, broken_run, last_state. cbv zeta.
  repeat case_on_call llm.
  all: cbn [calls In]; intros Hin Hst Hm.
  all: repeat (destruct Hin as [<-|Hin];
               [try (exfalso; apply Hst; reflexivity); try congruence|]);
       try contradiction.
  all: match goal with
       | E : llm ?q = Raise _, H : llm ?q = Raise _ |- _ =>
           rewrite E in H; injection H as <-
       end.
  all: reflexivity.
Qed.

Lemma late_transcription_failure raw s1 msg :
  let r := run_of llm raw in
  In (intake, s1) (trace r) -> In transcription (map fst (trace r)) ->
  TranscriptionAgent.process (CallState.intake_data s1) = Raise msg ->
  build (final r)
  = ErrorRecord
      (PStr "Routing error: 'NoneType' object has no attribute 'category'").
Proof.
  unfold run_of, broken_run, last_state. cbv zeta.
  repeat case_on_call llm.
  all: intros Hin Hnodes Hp.
  all: cbn [In map fst trace app fall_through] in Hin, Hnodes.
  all: try (destruct Hnodes as [Hnodes|[]]; discriminate Hnodes).
  all: destruct Hin as [[= <-]|Hin];
       [|repeat (destruct Hin as [Hin|Hin]; [discriminate Hin|]);
         contradiction].
  all: cbn [CallState.intake_data CallState.set_intake_data initial_state]
         in Hp.
  all: try congruence.
  reflexivity.
Qed.

(** X9. After a stage behind intake has raised, the error record is always
    routing's: the message of the routing call itself when that is what
    raised, and otherwise routing's complaint about the slot left empty,
    the summary after a failed transcription or summarization, the scores
    after a failed quality scoring. *)
Theorem late_failure_reports_routing raw r n msg :
  invoke llm (initial_state raw) = Ok r ->
  n <> intake -> raises_at llm r n msg ->
  process_call llm raw
  = Ok (ErrorRecord
          (PStr
             (match n with
              | routing => "Routing error: " ++ msg
              | _ =>
                  "Routing error: 'NoneType' object has no attribute '"
                  ++ routing_trips_on n ++ "'"
              end))).
Proof.
  unfold process_call. rewrite invoke_run_of. intros [= <-] Hn Hr.
  cbn [bind Monad_result ret].
  destruct n; [contradiction| | | |]; cbn [raises_at] in Hr.
  - destruct Hr as (s1 & Hin & Hnodes & Hp).
    rewrite (@late_transcription_failure raw s1 msg Hin Hnodes Hp).
    reflexivity.
  - destruct Hr as (p & Hin & Hst & Hm). rewrite <- Hst in Hn.
    rewrite (@late_model_call_failure raw p msg Hin Hn Hm), Hst.
    reflexivity.
  - destruct Hr as (p & Hin & Hst & Hm). rewrite <- Hst in Hn.
    rewrite (@late_model_call_failure raw p msg Hin Hn Hm), Hst.
    reflexivity.
  - destruct Hr as (p & Hin & Hst & Hm). rewrite <- Hst in Hn.
    rewrite (@late_model_call_failure raw p msg Hin Hn Hm), Hst.
    reflexivity.
Qed.

Lemma dict_get_missing d key default :
  (forall v, dict_item d key <> Ok v) -> dict_get d key default = default.
Proof.
  induction d as [|[k v] d IH]; cbn; [reflexivity|].
  destruct (String.eqb k key).
  - intros H. exfalso. apply (H v). reflexivity.
  - exact IH.
Qed.

(** X7. An intake response that is an object without [is_valid] counts as a
    verdict of valid: the intake data has [is_valid] true and the run goes
    on through the whole chain. *)
Theorem missing_verdict_is_accepted raw content d :
  llm (IntakePrompt raw) = Ok content ->
  json_loads content = Some (PDict d) ->
  (forall v, dict_item d "is_valid" <> Ok v) ->
  (exists data,
     fst (CallIntakeAgent.process llm raw []) = Ok data /\
     dict_item data "is_valid" = Ok (PBool true) /\
     dict_item data "reason" = Ok (dict_get d "reason" (PStr "Valid transcript"))
     /\ dict_item data "transcript" = Ok (PStr raw)) /\
  exists r,
    invoke llm (initial_state raw) = Ok r /\ map fst (trace r) = chain.
Proof.
  intros E Hj Hm.
  assert (Hd : try_except (CallIntakeAgent.parsed raw content)
                 (CallIntakeAgent.fallback raw)
               = [("is_valid", PBool true);
                  ("reason", dict_get d "reason" (PStr "Valid transcript"));
                  ("estimated_speakers",
                   dict_get d "estimated_speakers" (PInt 2));
                  ("transcript", PStr raw)]).
  { unfold CallIntakeAgent.parsed, loads. rewrite Hj.
    cbn [bind Monad_result py_get ret try_except].
    rewrite (@dict_get_missing d "is_valid" (PBool true) Hm). reflexivity. }
  split.
  - eexists. split.
    + unfold CallIntakeAgent.process, llm_invoke.
      cbn -[try_except CallIntakeAgent.parsed]. rewrite E, Hd. reflexivity.
    + repeat split.
  - eexists. split; [apply invoke_run_of|].
    unfold run_of, broken_run. cbv zeta. rewrite E, Hd.
    cbn [dict_get String.eqb Ascii.eqb Bool.eqb truthy].
    repeat case_on_call llm; reflexivity.
Qed.

(** X8. A parse that fails inside a stage never comes out of it: what a stage
    raises, given its inputs, is what its call to the model raised. *)
Theorem stage_raises_only_with_its_call :
  (forall raw h msg,
     fst (CallIntakeAgent.process llm raw h) = Raise msg ->
     llm (IntakePrompt raw) = Raise msg) /\
  (forall t h msg,
     fst (SummarizationAgent.process llm (Some t) h) = Raise msg ->
     llm (SummarizationPrompt (CallTranscript.text t)) = Raise msg) /\
  (forall t su h msg,
     fst (QualityScoringAgent.process llm (Some t) (Some su) h) = Raise msg ->
     llm (QualityScoringAgent.format_messages t su) = Raise msg) /\
  (forall su q h msg,
     fst (RoutingAgent.process llm (Some su) (Some q) h) = Raise msg ->
     llm (RoutingAgent.format_messages su q) = Raise msg).
Proof.
  repeat split; intros *.
  - unfold CallIntakeAgent.process, llm_invoke.
    cbn -[try_except CallIntakeAgent.parsed].
    destruct (llm _); cbn [fst]; congruence.
  - unfold SummarizationAgent.process, llm_invoke, lift.
    cbn -[try_except SummarizationAgent.parsed].
    destruct (llm _); cbn [fst]; congruence.
  - unfold QualityScoringAgent.process, llm_invoke, lift.
    cbn -[try_except QualityScoringAgent.parsed
          QualityScoringAgent.format_messages].
    destruct (llm _); cbn [fst]; congruence.
  - unfold RoutingAgent.process, llm_invoke, lift.
    cbn -[try_except RoutingAgent.parsed RoutingAgent.format_messages].
    destruct (llm _); cbn [fst]; congruence.
Qed.
End MoreFailures.

Lemma late_failure_reports_routing_witness :
  let R := Example.runtime [("{}", PDict [])] in
  process_call Sample.scorer_down "Agent: hello"
  = Ok (ErrorRecord
          (PStr "Routing error: 'NoneType' object has no attribute 'empathy'")).
Proof.
  intros R.
  apply (@late_failure_reports_routing R Sample.scorer_down "Agent: hello"
           (run_of Sample.scorer_down "Agent: hello") quality_scoring
           "rate limit").
  - reflexivity.
  - discriminate.
  - eexists. split; [cbn; right; right; left; reflexivity|].
    split; reflexivity.
Defined.

Lemma missing_verdict_is_accepted_witness :
  let R := Example.runtime [(Sample.no_verdict, Sample.no_verdict_decoded)] in
  let llm : model := fun _ => Ok Sample.no_verdict in
  (exists data,
     fst (CallIntakeAgent.process llm "Agent: hello" []) = Ok data /\
     dict_item data "is_valid" = Ok (PBool true) /\
     dict_item data "reason" = Ok (PStr "short but fine") /\
     dict_item data "transcript" = Ok (PStr "Agent: hello")) /\
  exists r,
    invoke llm (initial_state "Agent: hello") = Ok r /\
    map fst (trace r) = chain.
Proof.
  intros R llm.
  apply (@missing_verdict_is_accepted R llm "Agent: hello" Sample.no_verdict
           [("reason", PStr "short but fine")]).
  - reflexivity.
  - reflexivity.
  - intros v. discriminate.
Defined.

Lemma stage_raises_only_with_its_call_witness :
  let llm : model := fun _ => Raise "service down" in
  llm (SummarizationPrompt "Agent: hello") = Raise "service down".
Proof.
  intros llm.
  apply (proj1 (proj2 (@stage_raises_only_with_its_call (Example.runtime [])
                         llm))
           Example.a_transcript [] "service down").
  reflexivity.
Defined.

Lemma rejection_stops_after_intake_witness :
  let R := Example.runtime [(Sample.rejection, Sample.rejection_decoded)] in
  let llm : model := fun _ => Ok Sample.rejection in
  exists r e,
    invoke llm (initial_state "hello") = Ok r /\
    map fst (trace r) = [intake] /\
    calls r = [IntakePrompt "hello"] /\
    process_call llm "hello" = Ok (ErrorRecord e) /\
    (truthy (PStr "not a call") = true -> e = PStr "not a call").
Proof.
  intros R llm.
  apply (@rejection_stops_after_intake R llm "hello"
           [("is_valid", PBool false); ("reason", PStr "not a call");
            ("estimated_speakers", PInt 2); ("transcript", PStr "hello")]
           [IntakePrompt "hello"]).
  - reflexivity.
  - reflexivity.
Defined.

(* ===================================================================== *)
(** ** Further properties: labels and colours of a score *)
(* ===================================================================== *)

Lemma float_le_trans x y z :
  float_le x y = true -> float_le y z = true -> float_le x z = true.
Proof.
  destruct x as [a|[]|], y as [b|[]|], z as [c|[]|]; cbn;
    try discriminate; try reflexivity.
  intros H1 H2. apply Qle_bool_iff in H1. apply Qle_bool_iff in H2.
  apply Qle_bool_iff. eapply Qle_trans; eassumption.
Qed.

Lemma float_ge_up t a b :
  float_ge a t = true -> float_le a b = true -> float_ge b t = true.
Proof. unfold float_ge. intros H1 H2. eapply float_le_trans; eassumption. Qed.

(** X13. The colour and the label of a score never disagree: green goes with
    Excellent, orange with Good, red with Needs Improvement and Poor. *)
Theorem color_agrees_with_label (score : pyfloat) :
  (Utils.get_score_color score = "green" <->
   Utils.get_score_label score = "Excellent") /\
  (Utils.get_score_color score = "orange" <->
   Utils.get_score_label score = "Good") /\
  (Utils.get_score_color score = "red" <->
   Utils.get_score_label score = "Needs Improvement" \/
   Utils.get_score_label score = "Poor").
Proof.
  unfold Utils.get_score_color, Utils.get_score_label.
  destruct (float_ge score Config.EXCELLENT_THRESHOLD),
    (float_ge score Config.GOOD_THRESHOLD),
    (float_ge score Config.NEEDS_IMPROVEMENT_THRESHOLD);
    repeat split; intros H; try discriminate H; auto;
    destruct H as [H|H]; discriminate H.
Qed.

(** X14. A higher score never gets a worse label or a worse colour. *)
Theorem higher_score_no_worse_label (a b : pyfloat) :
  float_le a b = true ->
  (label_rank (Utils.get_score_label a)
   <= label_rank (Utils.get_score_label b))%nat /\
  (color_rank (Utils.get_score_color a)
   <= color_rank (Utils.get_score_color b))%nat.
Proof.
  intros H. unfold Utils.get_score_color, Utils.get_score_label.
  destruct (float_ge a Config.EXCELLENT_THRESHOLD) eqn:E8.
  { rewrite (float_ge_up _ _ _ E8 H). cbn. lia. }
  destruct (float_ge a Config.GOOD_THRESHOLD) eqn:E6.
  { rewrite (float_ge_up _ _ _ E6 H).
    destruct (float_ge b Config.EXCELLENT_THRESHOLD); cbn; lia. }
  destruct (float_ge a Config.NEEDS_IMPROVEMENT_THRESHOLD) eqn:E4.
  { rewrite (float_ge_up _ _ _ E4 H).
    destruct (float_ge b Config.EXCELLENT_THRESHOLD),
      (float_ge b Config.GOOD_THRESHOLD); cbn; lia. }
  destruct (float_ge b Config.EXCELLENT_THRESHOLD),
    (float_ge b Config.GOOD_THRESHOLD),
    (float_ge b Config.NEEDS_IMPROVEMENT_THRESHOLD); cbn; lia.
Qed.

Lemma higher_score_no_worse_label_witness :
  (label_rank (Utils.get_score_label (FNum (11 # 2)))
   <= label_rank (Utils.get_score_label (FNum (7 # 1))))%nat /\
  (color_rank (Utils.get_score_color (FNum (11 # 2)))
   <= color_rank (Utils.get_score_color (FNum (7 # 1))))%nat.
Proof.
  apply (@higher_score_no_worse_label (FNum (11 # 2)) (FNum (7 # 1))).
  reflexivity.
Defined.

(* ===================================================================== *)
(** ** Further properties: the export *)
(* ===================================================================== *)

Lemma SentimentType_of_value_value {R : Runtime} s :
  SentimentType.of_value (PStr (SentimentType.value s)) = Ok s.
Proof. destruct s; reflexivity. Qed.

Lemma CallCategory_of_value_value {R : Runtime} c :
  CallCategory.of_value (PStr (CallCategory.value c)) = Ok c.
Proof. destruct c; reflexivity. Qed.

Lemma map_PStr_inj l l' : map PStr l = map PStr l' -> l = l'.
Proof.
  revert l'. induction l as [|s l IH]; intros [|s' l']; cbn;
    try discriminate; [reflexivity|].
  intros [= -> H]. f_equal. apply IH, H.
Qed.

Lemma SentimentType_value_inj s s' :
  SentimentType.value s = SentimentType.value s' -> s = s'.
Proof. destruct s, s'; cbn; intros H; try discriminate H; reflexivity. Qed.

Lemma CallCategory_value_inj c c' :
  CallCategory.value c = CallCategory.value c' -> c = c'.
Proof. destruct c, c'; cbn; intros H; try discriminate H; reflexivity. Qed.

(** X15. The export holds the summary, the scores, the recommendations and the
    tags of an analysis, whole, and nothing of its transcript: two
    analyses have the same export exactly when they agree on those four
    parts. *)
Theorem export_is_all_but_the_transcript (a b : CallAnalysis.t) :
  AppExport.export_data a = AppExport.export_data b <->
  CallAnalysis.summary a = CallAnalysis.summary b /\
  CallAnalysis.qa_scores a = CallAnalysis.qa_scores b /\
  CallAnalysis.recommendations a = CallAnalysis.recommendations b /\
  CallAnalysis.tags a = CallAnalysis.tags b.
Proof.
  destruct a as [ta [kp ci rs se ca ai] [e p r c o] rc tg].
  destruct b as [tb [kp' ci' rs' se' ca' ai'] [e' p' r' c' o'] rc' tg'].
  unfold AppExport.export_data, AppExport.strs. cbn. split.
  - intros [= Hca Hse -> -> Hkp Hai -> -> -> -> -> Hrc Htg].
    apply CallCategory_value_inj in Hca. apply SentimentType_value_inj in Hse.
    apply map_PStr_inj in Hkp. apply map_PStr_inj in Hai.
    apply map_PStr_inj in Hrc. apply map_PStr_inj in Htg.
    subst. auto.
  - intros ([= -> -> -> -> -> ->] & [= -> -> -> -> ->] & -> & ->).
    reflexivity.
Qed.

Section ReadBack.
Context {R : Runtime} {L : RuntimeLaws R}.

(** Read back by the summarization stage, the summary of the export is the
    summary of the analysis. *)
Lemma export_reads_back_as_the_summary (a : CallAnalysis.t)
    (content : string) (v : pyvalue) :
  py_get (AppExport.export_data a) "summary" PNone = Ok v ->
  json_loads content = Some v ->
  SummarizationAgent.parsed content = Ok (CallAnalysis.summary a).
Proof.
  destruct a as [ta [kp ci rs se ca ai] q rc tg].
  cbn. intros [= <-] Hj.
  unfold SummarizationAgent.parsed, loads. rewrite Hj.
  cbn [bind Monad_result py_get dict_get String.eqb Ascii.eqb Bool.eqb].
  rewrite SentimentType_of_value_value, CallCategory_of_value_value.
  unfold CallSummary.new, AppExport.strs.
  rewrite !validate_list_str_strs, !validate_str_str. reflexivity.
Qed.

(** Read back by the quality stage, the scores of the export are the
    scores of the analysis, when these are within their bounds. *)
Lemma export_reads_back_as_the_scores (a : CallAnalysis.t)
    (content : string) (v : pyvalue) :
  let q := CallAnalysis.qa_scores a in
  QAScore.in_range (QAScore.empathy q) = true ->
  QAScore.in_range (QAScore.professionalism q) = true ->
  QAScore.in_range (QAScore.resolution q) = true ->
  QAScore.in_range (QAScore.compliance q) = true ->
  QAScore.in_range (QAScore.overall q) = true ->
  py_get (AppExport.export_data a) "qa_scores" PNone = Ok v ->
  json_loads content = Some v ->
  QualityScoringAgent.parsed content = Ok q.
Proof.
  destruct a as [ta su [e p r c o] rc tg].
  cbn. intros He Hp Hr Hc Ho [= <-] Hj.
  unfold QualityScoringAgent.parsed, loads. rewrite Hj.
  cbn [bind Monad_result py_get dict_get String.eqb Ascii.eqb Bool.eqb
       float_].
  unfold QAScore.new, QAScore.check. rewrite He, Hp, Hr, Hc, Ho.
  reflexivity.
Qed.

(** Read back by the routing stage and validated as the analysis does it,
    the export gives the recommendations and the tags of the analysis. *)
Lemma export_reads_back_as_the_routing (a : CallAnalysis.t)
    (content : string) (su : CallSummary.t) :
  json_loads content = Some (AppExport.export_data a) ->
  exists rd,
    RoutingAgent.parsed su content = Ok rd /\
    validate_list_str (dict_get rd "recommendations" PNone)
    = Some (CallAnalysis.recommendations a) /\
    validate_list_str (dict_get rd "tags" PNone)
    = Some (CallAnalysis.tags a).
Proof.
  intros Hj. unfold RoutingAgent.parsed, loads. rewrite Hj.
  unfold AppExport.export_data.
  cbn [bind Monad_result py_get dict_get String.eqb Ascii.eqb Bool.eqb ret].
  eexists. split; [reflexivity|].
  cbn [dict_get String.eqb Ascii.eqb Bool.eqb]. unfold AppExport.strs.
  rewrite !validate_list_str_strs. auto.
Qed.

(** X16. The export speaks the language of the stages: its summary, its scores
    and its two lists, decoded again and read by the stage that once made
    them, come back as the parts of the analysis, its scores being within
    their bounds. *)
Theorem export_reads_back_through_the_stages (a : CallAnalysis.t)
    (summary_text scores_text export_text : string) (vs vq : pyvalue) :
  let q := CallAnalysis.qa_scores a in
  QAScore.in_range (QAScore.empathy q)
  && QAScore.in_range (QAScore.professionalism q)
  && QAScore.in_range (QAScore.resolution q)
  && QAScore.in_range (QAScore.compliance q)
  && QAScore.in_range (QAScore.overall q) = true ->
  py_get (AppExport.export_data a) "summary" PNone = Ok vs ->
  json_loads summary_text = Some vs ->
  py_get (AppExport.export_data a) "qa_scores" PNone = Ok vq ->
  json_loads scores_text = Some vq ->
  json_loads export_text = Some (AppExport.export_data a) ->
  SummarizationAgent.parsed summary_text = Ok (CallAnalysis.summary a) /\
  QualityScoringAgent.parsed scores_text = Ok q /\
  forall su,
    exists rd,
      RoutingAgent.parsed su export_text = Ok rd /\
      validate_list_str (dict_get rd "recommendations" PNone)
      = Some (CallAnalysis.recommendations a) /\
      validate_list_str (dict_get rd "tags" PNone)
      = Some (CallAnalysis.tags a).
Proof.
  cbv zeta. intros Hq Hvs Hs Hvq Hsc He.
  do 4 (apply andb_true_iff in Hq; destruct Hq as [Hq ?]).
  split; [eapply export_reads_back_as_the_summary; eassumption|].
  split.
  { pose proof (@export_reads_back_as_the_scores a scores_text vq) as X.
    cbv zeta in X. apply X; assumption. }
  intros su. apply export_reads_back_as_the_routing, He.
Qed.
End ReadBack.

Lemma export_reads_back_through_the_stages_witness :
  let R := Example.runtime Sample.export_table in
  let a := Sample.support_call_analysis in
  SummarizationAgent.parsed Sample.exported_summary_json
  = Ok (CallAnalysis.summary a) /\
  QualityScoringAgent.parsed Sample.exported_scores_json
  = Ok (CallAnalysis.qa_scores a) /\
  forall su,
    exists rd,
      RoutingAgent.parsed su Sample.exported_json = Ok rd /\
      validate_list_str (dict_get rd "recommendations" PNone)
      = Some (CallAnalysis.recommendations a) /\
      validate_list_str (dict_get rd "tags" PNone)
      = Some (CallAnalysis.tags a).
Proof.
  intros R a.
  apply (@export_reads_back_through_the_stages R
           (example_runtime_laws Sample.export_table) a
           Sample.exported_summary_json Sample.exported_scores_json
           Sample.exported_json Sample.exported_summary
           Sample.exported_scores); reflexivity.
Defined.

(* ===================================================================== *)
(** ** Further properties: the handler and the files *)
(* ===================================================================== *)

Lemma in_without q p fs : q <> p -> (In q (App.without p fs) <-> In q fs).
Proof.
  intros Hq. unfold App.without. rewrite filter_In.
  assert (E : String.eqb p q = false).
  { apply String.eqb_neq. congruence. }
  rewrite E. cbn. tauto.
Qed.

Section Files.
Context {R : Runtime} (host : App.Host) (llm : model).

Lemma cleanup_temp_file_spec (p : string) (w : App.world) :
  let w' := snd (App.cleanup_temp_file host p w) in
  fst (App.cleanup_temp_file host p w) = Ok tt /\
  same_but_files w w' /\
  (forall q, q <> p -> (In q (App.files w') <-> In q (App.files w))).
Proof.
  unfold App.cleanup_temp_file, App.get, App.update, same_but_files.
  cbn [bind Monad_StExc ret].
  destruct (App.exists_ p (App.files w) && App.os_remove host p); cbn.
  - repeat split; try tauto; intros;
      match goal with
      | Hq : _ <> _ |- _ =>
          destruct (in_without (App.files w) Hq); auto
      end.
  - repeat split; tauto.
Qed.

(** X17. The cleanup never raises, changes nothing but the files, and among
    the files touches only the one it is given: that one is gone
    afterwards where its removal works, and everything is as before where
    the removal raises. *)
Theorem cleanup_touches_one_file (p : string) (w : App.world) :
  let w' := snd (App.cleanup_temp_file host p w) in
  fst (App.cleanup_temp_file host p w) = Ok tt /\
  same_but_files w w' /\
  (forall q, q <> p -> (In q (App.files w') <-> In q (App.files w))) /\
  (App.os_remove host p = true -> ~ In p (App.files w')) /\
  (App.os_remove host p = false -> w' = w).
Proof.
  cbv zeta. destruct (cleanup_temp_file_spec p w) as (H1 & H2 & H3).
  split; [exact H1|]. split; [exact H2|]. split; [exact H3|].
  unfold App.cleanup_temp_file, App.get, App.update.
  cbn [bind Monad_StExc ret].
  destruct (App.exists_ p (App.files w)) eqn:Ee,
    (App.os_remove host p) eqn:Er; cbn; split; try discriminate; intros _.
  - apply not_in_without.
  - reflexivity.
  - apply exists_false_not_in, Ee.
  - reflexivity.
Qed.

Lemma cleanup_if_set_spec (w : App.world) (q : string) :
  (forall p, App.temp_file_path w = Some p -> q <> p) ->
  let w' := snd (App.cleanup_if_set host w) in
  fst (App.cleanup_if_set host w) = Ok tt /\
  same_but_files w w' /\
  (In q (App.files w') <-> In q (App.files w)).
Proof.
  intros Hq. unfold App.cleanup_if_set, App.get.
  cbn [bind Monad_StExc]. unfold App.nonempty.
  destruct (App.temp_file_path w) as [p|] eqn:Ep.
  - destruct (String.eqb p "").
    + cbn. unfold same_but_files. tauto.
    + destruct (cleanup_temp_file_spec p w) as (H1 & H2 & H3).
      split; [exact H1|]. split; [exact H2|]. apply H3, Hq. reflexivity.
  - cbn. unfold same_but_files. tauto.
Qed.

(** The audio branch: it returns, it keeps the other files, and the path
    it leaves in [temp_file_path], if any, is the one the upload was saved
    under. *)
Lemma from_audio_spec (f : App.upload) (w : App.world) (q : string) :
  App.temp_file_path w = None ->
  App.named_temporary_file host (App.name f) <> Ok q ->
  let w' := snd (App.from_audio host f w) in
  (In q (App.files w') <-> In q (App.files w)) /\
  (forall p, App.temp_file_path w' = Some p ->
             App.named_temporary_file host (App.name f) = Ok p) /\
  App.analysis_result w' = App.analysis_result w.
Proof.
  intros Hnone Hq. cbv zeta.
  unfold App.from_audio, App.save_uploaded_audio, App.transcribe_audio,
    catch, lift, App.update.
  cbn -[App.cleanup_if_set String.append App.without].
  destruct (App.named_temporary_file host (App.name f)) as [p|m] eqn:En;
    cbn -[App.cleanup_if_set String.append App.without].
  - assert (Hqp : q <> p) by congruence.
    assert (Hin : forall fs, In q (p :: App.without p fs) <-> In q fs).
    { intros fs. cbn [In]. rewrite (in_without fs Hqp).
      split; [intros [H|H]; [congruence|exact H]|auto]. }
    destruct (App.file_write host p (App.getvalue f)) as [[]|m];
      cbn -[App.cleanup_if_set String.append App.without].
    + destruct (App.transcriptions_create host p) as [t|m];
        cbn -[App.cleanup_if_set String.append App.without].
      * split; [apply Hin|]. split; [|reflexivity]. intros p' [= <-].
        reflexivity.
      * match goal with
        | |- context [App.cleanup_if_set host ?w0] =>
            destruct (@cleanup_if_set_spec w0 q) as (_ & Hs & Hf);
            [cbn; intros p' [= <-]; exact Hqp|]
        end.
        destruct Hs as (_ & Htp & _ & Har & _).
        split; [rewrite Hf; apply Hin|]. split; [|exact Har].
        rewrite Htp. cbn. intros p' [= <-]. reflexivity.
    + match goal with
      | |- context [App.cleanup_if_set host ?w0] =>
          destruct (@cleanup_if_set_spec w0 q) as (_ & Hs & Hf);
          [cbn; rewrite Hnone; discriminate|]
      end.
      destruct Hs as (_ & Htp & _ & Har & _).
      split; [rewrite Hf; apply Hin|]. split; [|exact Har].
      rewrite Htp. cbn. rewrite Hnone. discriminate.
  - match goal with
    | |- context [App.cleanup_if_set host ?w0] =>
        destruct (@cleanup_if_set_spec w0 q) as (_ & Hs & Hf);
        [cbn; rewrite Hnone; discriminate|]
    end.
    destruct Hs as (_ & Htp & _ & Har & _).
    split; [rewrite Hf; reflexivity|]. split; [|exact Har].
    rewrite Htp. cbn. rewrite Hnone. discriminate.
Qed.

(** The analysis block keeps the other files too. *)
Lemma analyze_spec (text : string) (w : App.world) (q : string) :
  (forall p, App.temp_file_path w = Some p -> q <> p) ->
  In q (App.files (snd (App.analyze host llm text w))) <-> In q (App.files w).
Proof.
  intros Hq. unfold App.analyze, App.finally, lift, App.update.
  cbn -[process_call App.cleanup_if_set String.append].
  destruct (process_call llm text) as [[a|e]|m];
    cbn -[App.cleanup_if_set String.append];
    match goal with
    | |- context [App.cleanup_if_set host ?w0] =>
        destruct (@cleanup_if_set_spec w0 q) as (_ & _ & Hf);
        [exact Hq|rewrite Hf; reflexivity]
    end.
Qed.

(** X18. Whatever is clicked with, the handler leaves the other files on disk
    alone: a path that is not the one its upload is saved under is there
    afterwards exactly if it was there before. *)
Theorem handler_keeps_other_files (audio_file : option App.upload)
    (text : string) (w : App.world) (q : string) :
  (forall f, audio_file = Some f ->
             App.named_temporary_file host (App.name f) <> Ok q) ->
  (In q (App.files (snd (App.analyze_call host llm audio_file text w)))
   <-> In q (App.files w)).
Proof.
  intros Hq. destruct audio_file as [f|].
  - rewrite analyze_call_audio_eq. cbv zeta.
    set (w0 := App.set_temp_file_path None
                 (App.set_transcript_to_process None w)).
    destruct (@from_audio_spec f w0 q eq_refl (Hq f eq_refl))
      as (Hf & Hp & _).
    destruct (App.nonempty _).
    + rewrite analyze_spec; [exact Hf|].
      intros p Ep ->. apply Hp in Ep. exact (Hq f eq_refl Ep).
    + exact Hf.
  - unfold App.analyze_call, App.from_text, App.update, App.get.
    cbn -[App.analyze App.blank].
    destruct (App.blank text); cbn -[App.analyze].
    + reflexivity.
    + destruct (String.eqb text "").
      * reflexivity.
      * rewrite analyze_spec; [reflexivity|]. cbn. discriminate.
Qed.
End Files.

Section Whitespace.

Lemma byte_chr n : 0 <= n < 256 -> App.byte (Utf8.chr n) = n.
Proof.
  intros H. unfold App.byte, Utf8.chr.
  rewrite N_ascii_embedding by lia. lia.
Qed.

Lemma blank_1 c s :
  App.byte c < 128 ->
  App.blank (String c s) = App.is_space (App.byte c) && App.blank s.
Proof.
  intros H. cbn [App.blank].
  destruct (Z.ltb_spec (App.byte c) 128); [reflexivity|lia].
Qed.

Lemma blank_2 c1 c2 s :
  192 <= App.byte c1 < 224 ->
  App.blank (String c1 (String c2 s))
  = App.continues c2 && App.is_space (App.code_point 192 c1 [c2])
    && App.blank s.
Proof.
  intros H. cbn [App.blank].
  destruct (Z.ltb_spec (App.byte c1) 128); [lia|].
  destruct (Z.ltb_spec (App.byte c1) 192); [lia|].
  destruct (Z.ltb_spec (App.byte c1) 224); [reflexivity|lia].
Qed.

Lemma blank_3 c1 c2 c3 s :
  224 <= App.byte c1 < 240 ->
  App.blank (String c1 (String c2 (String c3 s)))
  = App.continues c2 && App.continues c3
    && App.is_space (App.code_point 224 c1 [c2; c3]) && App.blank s.
Proof.
  intros H. cbn [App.blank].
  destruct (Z.ltb_spec (App.byte c1) 128); [lia|].
  destruct (Z.ltb_spec (App.byte c1) 192); [lia|].
  destruct (Z.ltb_spec (App.byte c1) 224); [lia|].
  destruct (Z.ltb_spec (App.byte c1) 240); [reflexivity|lia].
Qed.

Lemma blank_4 c1 c2 c3 c4 s :
  240 <= App.byte c1 ->
  App.blank (String c1 (String c2 (String c3 (String c4 s))))
  = App.continues c2 && App.continues c3 && App.continues c4
    && App.is_space (App.code_point 240 c1 [c2; c3; c4]) && App.blank s.
Proof.
  intros H. cbn [App.blank].
  destruct (Z.ltb_spec (App.byte c1) 128); [lia|].
  destruct (Z.ltb_spec (App.byte c1) 192); [lia|].
  destruct (Z.ltb_spec (App.byte c1) 224); [lia|].
  destruct (Z.ltb_spec (App.byte c1) 240); [lia|reflexivity].
Qed.

Lemma continues_chr n : 0 <= n < 64 -> App.continues (Utf8.chr (128 + n)) = true.
Proof.
  intros H. unfold App.continues. rewrite byte_chr by lia.
  apply andb_true_iff. split; [apply Z.leb_le|apply Z.ltb_lt]; lia.
Qed.

(** [App.blank] reads UTF-8 as Python reads a str: on the text of any code
    points it says whether all of them are whitespace. *)
Lemma blank_text (cps : list Z) :
  Forall Utf8.code_point cps ->
  App.blank (Utf8.text cps) = forallb App.is_space cps.
Proof.
  induction 1 as [|cp cps Hcp _ IH]; [reflexivity|].
  cbn [Utf8.text forallb]. unfold Utf8.code_point in Hcp.
  unfold Utf8.encode.
  destruct (Z.ltb_spec cp 128).
  - cbn [String.append]. rewrite blank_1; rewrite byte_chr by lia;
      [rewrite IH; reflexivity|lia].
  - destruct (Z.ltb_spec cp 2048).
    + cbn [String.append].
      assert (0 <= cp mod 64 < 64) by (apply Z.mod_pos_bound; lia).
      assert (2 <= cp / 64 < 32)
        by (split; [apply Z.div_le_lower_bound|apply Z.div_lt_upper_bound];
            lia).
      rewrite blank_2 by (rewrite byte_chr; lia).
      rewrite continues_chr by lia.
      unfold App.code_point. cbn [fold_left]. rewrite !byte_chr by lia.
      replace ((192 + cp / 64 - 192) * 64 + (128 + cp mod 64 - 128))
        with cp by (Z.div_mod_to_equations; lia).
      rewrite IH. reflexivity.
    + destruct (Z.ltb_spec cp 65536).
      * cbn [String.append].
        assert (0 <= cp mod 64 < 64) by (apply Z.mod_pos_bound; lia).
        assert (0 <= (cp / 64) mod 64 < 64) by (apply Z.mod_pos_bound; lia).
        assert (0 <= cp / 4096 < 16)
          by (split; [apply Z.div_pos|apply Z.div_lt_upper_bound]; lia).
        rewrite blank_3 by (rewrite byte_chr; lia).
        rewrite !continues_chr by lia.
        unfold App.code_point. cbn [fold_left]. rewrite !byte_chr by lia.
        replace (((224 + cp / 4096 - 224) * 64
                  + (128 + (cp / 64) mod 64 - 128)) * 64
                 + (128 + cp mod 64 - 128))
          with cp.
        { rewrite IH. reflexivity. }
        Z.div_mod_to_equations; lia.
      * cbn [String.append].
        assert (0 <= cp mod 64 < 64) by (apply Z.mod_pos_bound; lia).
        assert (0 <= (cp / 64) mod 64 < 64) by (apply Z.mod_pos_bound; lia).
        assert (0 <= (cp / 4096) mod 64 < 64)
          by (apply Z.mod_pos_bound; lia).
        assert (0 <= cp / 262144 < 5)
          by (split; [apply Z.div_pos|apply Z.div_lt_upper_bound]; lia).
        rewrite blank_4 by (rewrite byte_chr; lia).
        rewrite !continues_chr by lia.
        unfold App.code_point. cbn [fold_left]. rewrite !byte_chr by lia.
        replace ((((240 + cp / 262144 - 240) * 64
                   + (128 + (cp / 4096) mod 64 - 128)) * 64
                  + (128 + (cp / 64) mod 64 - 128)) * 64
                 + (128 + cp mod 64 - 128))
          with cp.
        { rewrite IH. reflexivity. }
        Z.div_mod_to_equations; lia.
Qed.

(** The whitespace of [App.is_space] is that of [str.isspace], code point
    by code point. *)
Lemma is_space_python_spaces (cp : Z) :
  App.is_space cp = true <-> In cp Utf8.python_spaces.
Proof.
  unfold App.is_space, Utf8.python_spaces. cbn [In].
  rewrite !orb_true_iff, !andb_true_iff, !Z.leb_le, !Z.eqb_eq. lia.
Qed.
End Whitespace.

Section Clicks.
Context {R : Runtime} (host : App.Host) (llm : model).

Lemma not_blank_not_empty text :
  App.blank text = false -> String.eqb text "" = false.
Proof. destruct text; [discriminate|reflexivity]. Qed.

Lemma cleanup_if_set_same w :
  fst (App.cleanup_if_set host w) = Ok tt /\
  same_but_files w (snd (App.cleanup_if_set host w)).
Proof.
  unfold App.cleanup_if_set, App.get. cbn [bind Monad_StExc].
  destruct (App.nonempty (App.temp_file_path w)) as [p|].
  - destruct (cleanup_temp_file_spec host p w) as (H1 & H2 & _). auto.
  - cbn. unfold same_but_files. tauto.
Qed.

(** The analysis block, by what [process_call] returns: an analysis is
    stored with the text it was made of and the script is rerun, an error
    record is shown and the session left as it was. *)
Lemma analyze_outcome text w :
  let click := App.analyze host llm text w in
  match process_call llm text with
  | Ok (Analysis a) =>
      fst click = Raise "RerunException" /\
      App.analysis_result (snd click) = Some (Analysis a) /\
      App.last_transcript (snd click) = Some text /\
      App.shown (snd click) = App.shown w ++ ["✅ Analysis complete!"]
  | Ok (ErrorRecord e) =>
      fst click = Ok tt /\
      App.analysis_result (snd click) = App.analysis_result w /\
      App.last_transcript (snd click) = App.last_transcript w /\
      App.shown (snd click)
      = App.shown w ++ [("❌ Error: " ++ App.py_str e)%string]
  | Raise m =>
      fst click = Raise m /\
      App.analysis_result (snd click) = App.analysis_result w
  end /\
  App.transcribed_audio (snd click) = App.transcribed_audio w.
Proof.
  cbv zeta. unfold App.analyze, App.finally, lift, App.update.
  cbn -[process_call App.cleanup_if_set String.append].
  destruct (process_call llm text) as [[a|e]|m];
    cbn -[App.cleanup_if_set String.append];
    match goal with
    | |- context [App.cleanup_if_set host ?w0] =>
        destruct (cleanup_if_set_same w0)
          as (_ & (_ & _ & Hta & Har & Hlt & Hsh))
    end;
    rewrite ?Hta, ?Har, ?Hlt, ?Hsh; cbn; auto.
Qed.

Lemma analyze_without_upload text w :
  App.temp_file_path w = None ->
  App.files (snd (App.analyze host llm text w)) = App.files w.
Proof.
  intros Hn. unfold App.analyze, App.finally, lift, App.update.
  cbn -[process_call App.cleanup_if_set String.append].
  destruct (process_call llm text) as [[a|e]|m];
    cbn -[App.cleanup_if_set String.append];
    unfold App.cleanup_if_set, App.get; cbn; rewrite Hn; reflexivity.
Qed.

(** X23. Text that is typed in is analysed as it is: an analysis is stored with
    that text and the script is rerun, an error record is shown and the
    session is left as it was; a transcription kept from an earlier upload
    is dropped, and no file is touched. *)
Theorem typed_text_is_analysed (text : string) (w : App.world) :
  App.blank text = false ->
  let click := App.analyze_call host llm None text w in
  App.files (snd click) = App.files w /\
  App.transcribed_audio (snd click) = None /\
  match process_call llm text with
  | Ok (Analysis a) =>
      fst click = Raise "RerunException" /\
      App.analysis_result (snd click) = Some (Analysis a) /\
      App.last_transcript (snd click) = Some text /\
      App.shown (snd click) = App.shown w ++ ["✅ Analysis complete!"]
  | Ok (ErrorRecord e) =>
      fst click = Ok tt /\
      App.analysis_result (snd click) = App.analysis_result w /\
      App.last_transcript (snd click) = App.last_transcript w /\
      App.shown (snd click)
      = App.shown w ++ [("❌ Error: " ++ App.py_str e)%string]
  | Raise m => fst click = Raise m
  end.
Proof.
  intros Hb. cbv zeta.
  unfold App.analyze_call, App.from_text, App.update, App.get.
  cbn -[App.analyze App.blank String.eqb process_call]. rewrite Hb.
  cbn -[App.analyze String.eqb process_call].
  rewrite (not_blank_not_empty _ Hb).
  match goal with
  | |- context [App.analyze host llm text ?w0] =>
      destruct (analyze_outcome text w0) as (Ho & Hta);
      pose proof (analyze_without_upload text w0 eq_refl) as Hf;
      set (click := App.analyze host llm text w0) in *
  end.
  cbv zeta in Ho, Hta. cbn in Hf, Hta.
  split; [exact Hf|]. split; [exact Hta|].
  destruct (process_call llm text) as [[a|e]|m]; tauto.
Qed.

(** X24. A click without an upload and with nothing typed, or only blanks,
    runs nothing: a warning is shown and that is all. *)
Theorem blank_input_is_not_analysed (text : string) (w : App.world) :
  App.blank text = true ->
  let click := App.analyze_call host llm None text w in
  fst click = Ok tt /\
  App.files (snd click) = App.files w /\
  App.analysis_result (snd click) = App.analysis_result w /\
  App.last_transcript (snd click) = App.last_transcript w /\
  App.transcribed_audio (snd click) = App.transcribed_audio w /\
  App.shown (snd click)
  = App.shown w
    ++ ["⚠️ Please upload an audio file or enter a transcript first!"].
Proof.
  intros Hb. cbv zeta.
  unfold App.analyze_call, App.from_text, App.update, App.get.
  cbn -[App.analyze App.blank]. rewrite Hb. cbn. auto 10.
Qed.

(** X20. An upload whose bytes cannot be written stays on disk: the file was
    created before the write raised, its path never reached
    [temp_file_path], so neither cleanup removes it. The error is shown,
    nothing is analysed and the handler returns. *)
Theorem failed_write_leaves_the_file (f : App.upload) (p m text : string)
    (w : App.world) :
  App.named_temporary_file host (App.name f) = Ok p ->
  App.file_write host p (App.getvalue f) = Raise m ->
  let click := App.analyze_call host llm (Some f) text w in
  fst click = Ok tt /\
  In p (App.files (snd click)) /\
  App.temp_file_path (snd click) = None /\
  App.analysis_result (snd click) = App.analysis_result w /\
  App.shown (snd click)
  = App.shown w ++ [("❌ Transcription Error: " ++ m)%string].
Proof.
  intros Hn Hw. rewrite analyze_call_audio_eq. cbv zeta.
  unfold App.from_audio, App.save_uploaded_audio, App.transcribe_audio,
    App.cleanup_if_set, catch, lift, App.update, App.get.
  cbn -[String.append App.without App.analyze].
  rewrite Hn. cbn -[String.append App.without App.analyze].
  rewrite Hw. cbn -[String.append App.without App.analyze].
  repeat split; auto.
Qed.

(** X21. A failed transcription is shown with the prefix of
    [transcribe_audio], nothing is analysed, and the handler returns. *)
Theorem failed_transcription_is_shown (f : App.upload) (p m text : string)
    (w : App.world) :
  saved host f p ->
  App.transcriptions_create host p = Raise m ->
  let click := App.analyze_call host llm (Some f) text w in
  fst click = Ok tt /\
  App.analysis_result (snd click) = App.analysis_result w /\
  App.last_transcript (snd click) = App.last_transcript w /\
  App.transcribed_audio (snd click) = App.transcribed_audio w /\
  App.shown (snd click)
  = App.shown w
    ++ [("❌ Transcription Error: Audio transcription failed: " ++ m)%string].
Proof.
  intros (Hn & Hne & Hw) Ht. rewrite analyze_call_audio_eq. cbv zeta.
  unfold App.from_audio, App.save_uploaded_audio, App.transcribe_audio,
    catch, lift, App.update.
  cbn -[String.append App.without App.analyze App.cleanup_if_set].
  rewrite Hn. cbn -[String.append App.without App.analyze App.cleanup_if_set].
  rewrite Hw. cbn -[String.append App.without App.analyze App.cleanup_if_set].
  rewrite Ht. cbn -[String.append App.without App.analyze App.cleanup_if_set].
  match goal with
  | |- context [App.cleanup_if_set host ?w0] =>
      destruct (cleanup_if_set_same w0)
        as (_ & (Htp & _ & Hta & Har & Hlt & Hsh))
  end.
  rewrite Htp.
  cbn -[String.append App.without App.analyze App.cleanup_if_set].
  rewrite Hta, Har, Hlt, Hsh. cbn. auto.
Qed.

(** X22. An upload that is saved and transcribed to a text is analysed as that
    text: the transcription is kept in the session and announced, and the
    click then ends as the analysis of that text does. *)
Theorem upload_is_analysed_as_its_transcription (f : App.upload)
    (p t text : string) (w : App.world) :
  saved host f p ->
  App.transcriptions_create host p = Ok t -> t <> "" ->
  let click := App.analyze_call host llm (Some f) text w in
  App.transcribed_audio (snd click) = Some t /\
  match process_call llm t with
  | Ok (Analysis a) =>
      fst click = Raise "RerunException" /\
      App.analysis_result (snd click) = Some (Analysis a) /\
      App.last_transcript (snd click) = Some t /\
      App.shown (snd click)
      = App.shown w ++ ["✅ Audio transcribed successfully!";
                        "✅ Analysis complete!"]
  | Ok (ErrorRecord e) =>
      fst click = Ok tt /\
      App.analysis_result (snd click) = App.analysis_result w /\
      App.last_transcript (snd click) = App.last_transcript w /\
      App.shown (snd click)
      = App.shown w ++ ["✅ Audio transcribed successfully!";
                        ("❌ Error: " ++ App.py_str e)%string]
  | Raise m =>
      fst click = Raise m /\
      App.analysis_result (snd click) = App.analysis_result w
  end.
Proof.
  intros Hs Ht Hne. rewrite analyze_call_audio_eq. cbv zeta.
  set (w0 := App.set_temp_file_path None
               (App.set_transcript_to_process None w)).
  destruct (from_audio_ok w0 Hs Ht) as (_ & _ & Htp).
  cbv zeta in Htp. rewrite Htp. cbn [App.nonempty].
  apply String.eqb_neq in Hne. rewrite Hne.
  destruct (analyze_outcome t (snd (App.from_audio host f w0)))
    as (Ho & Hta).
  cbv zeta in Ho, Hta.
  assert (Hw1 :
    App.transcribed_audio (snd (App.from_audio host f w0)) = Some t /\
    App.analysis_result (snd (App.from_audio host f w0))
    = App.analysis_result w /\
    App.last_transcript (snd (App.from_audio host f w0))
    = App.last_transcript w /\
    App.shown (snd (App.from_audio host f w0))
    = App.shown w ++ ["✅ Audio transcribed successfully!"]).
  { destruct Hs as (Hn & _ & Hw).
    unfold App.from_audio, App.save_uploaded_audio, App.transcribe_audio,
      catch, lift, App.update.
    cbn -[String.append App.without App.cleanup_if_set].
    rewrite Hn. cbn -[String.append App.without App.cleanup_if_set].
    rewrite Hw. cbn -[String.append App.without App.cleanup_if_set].
    rewrite Ht. cbn -[String.append App.without App.cleanup_if_set].
    auto. }
  destruct Hw1 as (H1 & H2 & H3 & H4).
  rewrite Hta. split; [exact H1|].
  destruct (process_call llm t) as [[a|e]|m];
    rewrite ?H2, ?H3, ?H4, <- ?app_assoc in Ho; exact Ho.
Qed.
End Clicks.

Lemma typed_text_is_analysed_witness :
  let R := Example.runtime [] in
  let click :=
    App.analyze_call Sample.speech_host Example.summarizer_down None
      "Agent: hello" (App.before_click ["/tmp/old.wav"]) in
  App.files (snd click) = ["/tmp/old.wav"] /\
  App.transcribed_audio (snd click) = None /\
  match process_call Example.summarizer_down "Agent: hello" with
  | Ok (Analysis a) =>
      fst click = Raise "RerunException" /\
      App.analysis_result (snd click) = Some (Analysis a) /\
      App.last_transcript (snd click) = Some "Agent: hello" /\
      App.shown (snd click) = [] ++ ["✅ Analysis complete!"]
  | Ok (ErrorRecord e) =>
      fst click = Ok tt /\
      App.analysis_result (snd click) = None /\
      App.last_transcript (snd click) = None /\
      App.shown (snd click) = [] ++ [("❌ Error: " ++ App.py_str e)%string]
  | Raise m => fst click = Raise m
  end.
Proof.
  intros R.
  apply (@typed_text_is_analysed R Sample.speech_host
           Example.summarizer_down "Agent: hello"
           (App.before_click ["/tmp/old.wav"])).
  reflexivity.
Defined.

Lemma blank_input_is_not_analysed_witness :
  let R := Example.runtime [] in
  let click :=
    App.analyze_call Sample.speech_host Example.summarizer_down None
      Sample.spaces_only (App.before_click ["/tmp/old.wav"]) in
  fst click = Ok tt /\
  App.files (snd click) = ["/tmp/old.wav"] /\
  App.analysis_result (snd click) = None /\
  App.last_transcript (snd click) = None /\
  App.transcribed_audio (snd click) = None /\
  App.shown (snd click)
  = [] ++ ["⚠️ Please upload an audio file or enter a transcript first!"].
Proof.
  intros R.
  apply (@blank_input_is_not_analysed R Sample.speech_host
           Example.summarizer_down Sample.spaces_only
           (App.before_click ["/tmp/old.wav"])).
  reflexivity.
Defined.

Lemma failed_write_leaves_the_file_witness :
  let R := Example.runtime [] in
  let click :=
    App.analyze_call Sample.full_disk_host Example.summarizer_down
      (Some Sample.speech) "" (App.before_click []) in
  fst click = Ok tt /\
  In "/tmp/tmpa1b2.mp3" (App.files (snd click)) /\
  App.temp_file_path (snd click) = None /\
  App.analysis_result (snd click) = None /\
  App.shown (snd click)
  = [] ++ ["❌ Transcription Error: No space left on device"].
Proof.
  intros R.
  apply (@failed_write_leaves_the_file R Sample.full_disk_host
           Example.summarizer_down Sample.speech "/tmp/tmpa1b2.mp3"
           "No space left on device" "" (App.before_click [])).
  - reflexivity.
  - reflexivity.
Defined.

Lemma failed_transcription_is_shown_witness :
  let R := Example.runtime [] in
  let click :=
    App.analyze_call Sample.offline_host Example.summarizer_down
      (Some Sample.speech) "" (App.before_click []) in
  fst click = Ok tt /\
  App.analysis_result (snd click) = None /\
  App.last_transcript (snd click) = None /\
  App.transcribed_audio (snd click) = None /\
  App.shown (snd click)
  = [] ++ ["❌ Transcription Error: Audio transcription failed: "
           ++ "Connection error."]%string.
Proof.
  intros R.
  apply (@failed_transcription_is_shown R Sample.offline_host
           Example.summarizer_down Sample.speech "/tmp/tmpa1b2.mp3"
           "Connection error." "" (App.before_click [])).
  - repeat split. discriminate.
  - reflexivity.
Defined.

Lemma upload_is_analysed_as_its_transcription_witness :
  let R := Example.runtime [] in
  let click :=
    App.analyze_call Sample.speech_host Example.summarizer_down
      (Some Sample.speech) "" (App.before_click []) in
  App.transcribed_audio (snd click) = Some "Agent: hello" /\
  match process_call Example.summarizer_down "Agent: hello" with
  | Ok (Analysis a) =>
      fst click = Raise "RerunException" /\
      App.analysis_result (snd click) = Some (Analysis a) /\
      App.last_transcript (snd click) = Some "Agent: hello" /\
      App.shown (snd click)
      = [] ++ ["✅ Audio transcribed successfully!";
               "✅ Analysis complete!"]
  | Ok (ErrorRecord e) =>
      fst click = Ok tt /\
      App.analysis_result (snd click) = None /\
      App.last_transcript (snd click) = None /\
      App.shown (snd click)
      = [] ++ ["✅ Audio transcribed successfully!";
               ("❌ Error: " ++ App.py_str e)%string]
  | Raise m =>
      fst click = Raise m /\
      App.analysis_result (snd click) = None
  end.
Proof.
  intros R.
  apply (@upload_is_analysed_as_its_transcription R Sample.speech_host
           Example.summarizer_down Sample.speech "/tmp/tmpa1b2.mp3"
           "Agent: hello" "" (App.before_click [])).
  - repeat split. discriminate.
  - reflexivity.
  - discriminate.
Defined.

Lemma upload_removed_otherwise_witness :
  let R := Example.runtime [] in
  ~ In "/tmp/tmpa1b2.mp3"
      (App.files
         (snd (App.analyze_call Sample.speech_host Example.summarizer_down
                 (Some Sample.speech) "" (App.before_click [])))).
Proof.
  intros R.
  apply (@upload_removed_otherwise R Sample.speech_host
           Example.summarizer_down Sample.speech "/tmp/tmpa1b2.mp3" ""
           (App.before_click [])).
  - repeat split. discriminate.
  - reflexivity.
  - cbn. discriminate.
Defined.

Lemma handler_keeps_other_files_witness :
  let R := Example.runtime [] in
  In "/tmp/old.wav"
    (App.files
       (snd (App.analyze_call Sample.speech_host Example.summarizer_down
               (Some Sample.speech) "" (App.before_click ["/tmp/old.wav"]))))
  <-> In "/tmp/old.wav" (App.files (App.before_click ["/tmp/old.wav"])).
Proof.
  intros R.
  apply (@handler_keeps_other_files R Sample.speech_host
           Example.summarizer_down (Some Sample.speech) ""
           (App.before_click ["/tmp/old.wav"]) "/tmp/old.wav").
  intros f _. cbn. discriminate.
Defined.
